(** * plugin-winget: a shallow embedding of the publish pipeline

    The Go sources embedded here are [hash.go], [github.go], [plugin.go] and
    the manifest file ([GenerateManifests], [GetFiles]; cited below as
    manifests.go).  Go strings are byte sequences: they are Rocq [string]s
    (lists of [ascii]), [len] is [String.length], [s[:1]] is the first byte.
    A Go [[]byte] is a [list byte]; a Go [int] holding an HTTP status is a [Z];
    a [map[string]string] is a [gmap string string]. *)

From Stdlib Require Import ZArith NArith List String Ascii Bool Lia.
From Stdlib.Strings Require Import Byte.
From stdpp Require Import base strings gmap list pretty.
Import ListNotations.

(** ** Outcomes of Go calls *)

(** A Go [error] is used by this program only through its message
    ([%v], [%w] and [Error()]): it is modelled by that message. *)
Definition error := string.

(** The [(value, error)] pair a Go function returns. *)
Inductive Result (A : Type) : Type :=
| Ok (a : A)
| Err (e : error).
Arguments Ok {A} a.
Arguments Err {A} e.

(** What a call amounts to: it returns, it panics at run time, or (for the
    fuel-bounded redirect loop only) the model ran out of fuel. *)
Inductive Outcome (A : Type) : Type :=
| Ret (a : A)
| Panic (msg : string)
| Diverge.
Arguments Ret {A} a.
Arguments Panic {A} msg.
Arguments Diverge {A}.

(** ** The parts of Go's [strings], [fmt] and [encoding/hex] the program uses *)

Module GoStrings.

Definition byte_lt (c : ascii) (n : N) : bool := (N_of_ascii c <? n)%N.
Definition byte_in (lo hi : ascii) (c : ascii) : bool :=
  ((N_of_ascii lo <=? N_of_ascii c) && (N_of_ascii c <=? N_of_ascii hi))%N.

(** [c >= utf8.RuneSelf] is the test that sends [ToLower]/[ToUpper] off
    their ASCII path. *)
Definition isASCII (s : string) : bool :=
  forallb (fun c => byte_lt c 128) (list_ascii_of_string s).

(** ['A' <= c && c <= 'Z'] then [c += 'a' - 'A']. *)
Definition lower_byte (c : ascii) : ascii :=
  if byte_in "A" "Z" c then ascii_of_N (N_of_ascii c + 32) else c.

(** ['a' <= c && c <= 'z'] then [c -= 'a' - 'A']. *)
Definition upper_byte (c : ascii) : ascii :=
  if byte_in "a" "z" c then ascii_of_N (N_of_ascii c - 32) else c.

Fixpoint map_bytes (f : ascii -> ascii) (s : string) : string :=
  match s with
  | EmptyString => EmptyString
  | String c s' => String (f c) (map_bytes f s')
  end.

(** [strings.ToUpper] on its ASCII path, the only one a hexadecimal string
    takes (see [hex_isASCII] below). *)
Definition ToUpper (s : string) : string := map_bytes upper_byte s.

(** The UTF-8 encoding of U+FFFD, [utf8.RuneError]. *)
Definition RuneError_utf8 : string :=
  String (ascii_of_N 239) (String (ascii_of_N 191) (String (ascii_of_N 189) EmptyString)).

(** [strings.ToLower] applied to a one-byte string, which is what
    [GenerateManifests] passes.  An ASCII byte takes the ASCII path.  A byte
    [>= 0x80] alone is not valid UTF-8: the library goes through
    [strings.Map(unicode.ToLower, s)], which decodes it as [utf8.RuneError]
    and writes that rune out. *)
Definition ToLower1 (c : ascii) : string :=
  if byte_lt c 128 then String (lower_byte c) EmptyString else RuneError_utf8.

(** [strings.HasPrefix]. *)
Definition HasPrefix (s p : string) : bool := String.prefix p s.

(** [strings.SplitN(s, sep, 2)] for a one-byte separator: at most two
    pieces, cut at the first separator; the whole string, alone, when it
    has none. *)
Fixpoint cut (sep : ascii) (s : string) : option (string * string) :=
  match s with
  | EmptyString => None
  | String c s' =>
      if Ascii.eqb c sep then Some (EmptyString, s')
      else match cut sep s' with
           | Some (a, b) => Some (String c a, b)
           | None => None
           end
  end.

Definition SplitN2 (s : string) (sep : ascii) : list string :=
  match cut sep s with
  | Some (a, b) => [a; b]
  | None => [s]
  end.

(** [strings.ReplaceAll(s, old, new)] for a non-empty [old] (the program
    only passes ["{{.Version}}"], ["{{.PackageId}}"] and ["."]): matches are
    taken left to right and do not overlap.  [skip] counts the bytes of a
    match still to be dropped. *)
Fixpoint replace_from (old new : string) (skip : nat) (s : string) : string :=
  match s with
  | EmptyString => EmptyString
  | String c s' =>
      match skip with
      | S k => replace_from old new k s'
      | O =>
          if String.prefix old s
          then new +:+ replace_from old new (String.length old - 1) s'
          else String c (replace_from old new 0 s')
      end
  end.

Definition ReplaceAll (s old new : string) : string :=
  match old with
  | EmptyString => s
  | _ => replace_from old new 0 s
  end.

(** [%d] of [fmt.Sprintf]. *)
Definition fmt_d (n : Z) : string := pretty n.

(** [encoding/hex]: [hextable[v>>4]], [hextable[v&0x0f]]. *)
Definition hextable : string := "0123456789abcdef".

Definition hex_digit (n : N) : ascii :=
  match String.get (N.to_nat n) hextable with
  | Some c => c
  | None => "0"%char
  end.

Fixpoint hex_EncodeToString (src : list byte) : string :=
  match src with
  | [] => EmptyString
  | v :: rest =>
      String (hex_digit (N.shiftr (Byte.to_N v) 4))
        (String (hex_digit (N.land (Byte.to_N v) 15))
           (hex_EncodeToString rest))
  end.

(** The characters of an upper-case hexadecimal string. *)
Definition is_upper_hex (c : ascii) : bool :=
  byte_in "0" "9" c || byte_in "A" "F" c.

End GoStrings.

(** ** [crypto/sha256]: SHA-256 as in FIPS 180-4, in the shape of the
    library's generic block function.  A [uint32] is an [N] below [2^32]. *)

Module SHA256.
Local Open Scope N_scope.

Definition mask32 : N := 0xFFFFFFFF.
Definition add32 (x y : N) : N := N.land (x + y) mask32.
Definition not32 (x : N) : N := N.lxor x mask32.
(** [bits.RotateLeft32(x, -n)]. *)
Definition rotr (x n : N) : N :=
  N.lor (N.shiftr x n) (N.land (N.shiftl x (32 - n)) mask32).

Definition _K : list N :=
  [ 0x428A2F98; 0x71374491; 0xB5C0FBCF; 0xE9B5DBA5;
    0x3956C25B; 0x59F111F1; 0x923F82A4; 0xAB1C5ED5;
    0xD807AA98; 0x12835B01; 0x243185BE; 0x550C7DC3;
    0x72BE5D74; 0x80DEB1FE; 0x9BDC06A7; 0xC19BF174;
    0xE49B69C1; 0xEFBE4786; 0x0FC19DC6; 0x240CA1CC;
    0x2DE92C6F; 0x4A7484AA; 0x5CB0A9DC; 0x76F988DA;
    0x983E5152; 0xA831C66D; 0xB00327C8; 0xBF597FC7;
    0xC6E00BF3; 0xD5A79147; 0x06CA6351; 0x14292967;
    0x27B70A85; 0x2E1B2138; 0x4D2C6DFC; 0x53380D13;
    0x650A7354; 0x766A0ABB; 0x81C2C92E; 0x92722C85;
    0xA2BFE8A1; 0xA81A664B; 0xC24B8B70; 0xC76C51A3;
    0xD192E819; 0xD6990624; 0xF40E3585; 0x106AA070;
    0x19A4C116; 0x1E376C08; 0x2748774C; 0x34B0BCB5;
    0x391C0CB3; 0x4ED8AA4A; 0x5B9CCA4F; 0x682E6FF3;
    0x748F82EE; 0x78A5636F; 0x84C87814; 0x8CC70208;
    0x90BEFFFA; 0xA4506CEB; 0xBEF9A3F7; 0xC67178F2 ].

(** The eight chaining words [dig.h]. *)
Record digest : Type := mkDigest
  { h0 : N; h1 : N; h2 : N; h3 : N; h4 : N; h5 : N; h6 : N; h7 : N }.

Definition init : digest :=
  mkDigest 0x6A09E667 0xBB67AE85 0x3C6EF372 0xA54FF53A
           0x510E527F 0x9B05688C 0x1F83D9AB 0x5BE0CD19.

(** [w[i] = uint32(p[j])<<24 | uint32(p[j+1])<<16 | uint32(p[j+2])<<8 | uint32(p[j+3])] *)
Fixpoint be_words (p : list N) (n : nat) : list N :=
  match n with
  | O => []
  | S n' =>
      match p with
      | b0 :: b1 :: b2 :: b3 :: rest =>
          N.lor (N.lor (N.lor (N.shiftl b0 24) (N.shiftl b1 16)) (N.shiftl b2 8)) b3
          :: be_words rest n'
      | _ => []
      end
  end.

Definition wget (w : list N) (i : nat) : N := nth i w 0.

(** The second loop of the block function, [for i := 16; i < 64; i++]:
    [count] more words are appended to [w]. *)
Fixpoint schedule (w : list N) (count : nat) : list N :=
  match count with
  | O => w
  | S count' =>
      let i := length w in
      let v1 := wget w (i - 2) in
      let t1 := N.lxor (N.lxor (rotr v1 17) (rotr v1 19)) (N.shiftr v1 10) in
      let v2 := wget w (i - 15) in
      let t2 := N.lxor (N.lxor (rotr v2 7) (rotr v2 18)) (N.shiftr v2 3) in
      schedule (w ++ [add32 (add32 (add32 t1 (wget w (i - 7))) t2) (wget w (i - 16))]) count'
  end.

(** One iteration of the round loop, on the working variables [a..h]. *)
Definition round (s : digest) (kw : N * N) : digest :=
  let '(mkDigest a b c d e f g h) := s in
  let t1 :=
    add32 (add32 (add32 (add32 h
      (N.lxor (N.lxor (rotr e 6) (rotr e 11)) (rotr e 25)))
      (N.lxor (N.land e f) (N.land (not32 e) g)))
      (fst kw)) (snd kw) in
  let t2 :=
    add32 (N.lxor (N.lxor (rotr a 2) (rotr a 13)) (rotr a 22))
          (N.lxor (N.lxor (N.land a b) (N.land a c)) (N.land b c)) in
  mkDigest (add32 t1 t2) a b c (add32 d t1) e f g.

(** One pass of [for len(p) >= chunk] over a 64-byte chunk. *)
Definition block (dig : digest) (p : list N) : digest :=
  let w := schedule (be_words p 16) 48 in
  let r := fold_left round (combine _K w) dig in
  mkDigest (add32 (h0 dig) (h0 r)) (add32 (h1 dig) (h1 r))
           (add32 (h2 dig) (h2 r)) (add32 (h3 dig) (h3 r))
           (add32 (h4 dig) (h4 r)) (add32 (h5 dig) (h5 r))
           (add32 (h6 dig) (h6 r)) (add32 (h7 dig) (h7 r)).

Fixpoint blocks (dig : digest) (p : list N) (nblocks : nat) : digest :=
  match nblocks with
  | O => dig
  | S n' => blocks (block dig (firstn 64 p)) (skipn 64 p) n'
  end.

(** [binary.BigEndian.PutUint64] / [PutUint32]. *)
Definition byte_at (x : N) (shift : N) : N := N.land (N.shiftr x shift) 255.
Definition be64 (x : N) : list N :=
  map (byte_at x) [56; 48; 40; 32; 24; 16; 8; 0].
Definition be32 (x : N) : list N :=
  map (byte_at x) [24; 16; 8; 0].

(** [checkSum]: a 0x80 byte, zeros up to 56 mod 64, then the length in
    bits as a [uint64]. *)
Definition padding (len : N) : list N :=
  let r := len mod 64 in
  let zeros := if r <? 56 then 55 - r else 119 - r in
  (128 :: repeat 0 (N.to_nat zeros) ++ be64 (N.land (N.shiftl len 3) 0xFFFFFFFFFFFFFFFF))%list.

Definition byte_of_N (n : N) : byte :=
  match Byte.of_N (N.land n 255) with
  | Some b => b
  | None => x00
  end.

Definition digest_bytes (d : digest) : list byte :=
  map byte_of_N
    (be32 (h0 d) ++ be32 (h1 d) ++ be32 (h2 d) ++ be32 (h3 d) ++
     be32 (h4 d) ++ be32 (h5 d) ++ be32 (h6 d) ++ be32 (h7 d))%list.

(** [sha256.Sum256]. *)
Definition Sum256 (data : list byte) : list byte :=
  let p := (map Byte.to_N data ++ padding (N.of_nat (length data)))%list in
  digest_bytes (blocks init p (length p / 64)%nat).

End SHA256.

(** ** hash.go: the in-memory digest *)

(** [CalculateHashFromBytes]: [strings.ToUpper(hex.EncodeToString(hash[:]))]. *)
Definition CalculateHashFromBytes (data : list byte) : string :=
  GoStrings.ToUpper (GoStrings.hex_EncodeToString (SHA256.Sum256 data)).

(** ** plugin.go: configuration records *)

Module InstallerConfig.
Record t : Type := mk
  { URL : string;
    Architecture : string;
    Type' : string;
    Switches : gmap string string;
    Scope : string;
    ProductCode : string }.
End InstallerConfig.

Module MetadataConfig.
Record t : Type := mk
  { Publisher : string;
    PublisherURL : string;
    PublisherSupportURL : string;
    Name : string;
    ShortDescription : string;
    License : string;
    LicenseURL : string;
    Copyright : string;
    PackageURL : string;
    Tags : list string;
    Moniker : string;
    ReleaseNotesURL : string }.
End MetadataConfig.

Module LocaleConfig.
Record t : Type := mk { Locale : string; Description : string }.
End LocaleConfig.

Module PRConfig.
Record t : Type := mk
  { ForkOwner : string;
    BaseBranch : string;
    Title : string;
    DeleteBranch : bool }.
End PRConfig.

Module Config.
Record t : Type := mk
  { PackageID : string;
    GitHubToken : string;
    Installers : list InstallerConfig.t;
    Metadata : MetadataConfig.t;
    Locales : list LocaleConfig.t;
    PullRequest : PRConfig.t;
    Validate : bool;
    TestInstall : bool;
    DryRun : bool }.
End Config.

(** ** manifests.go: the three documents *)

(** [const ManifestVersion = "1.6.0"]. *)
Definition ManifestVersion : string := "1.6.0".

Module VersionManifest.
Record t : Type := mk
  { PackageIdentifier : string;
    PackageVersion : string;
    DefaultLocale : string;
    ManifestType : string;
    ManifestVersion : string }.
End VersionManifest.

Module Installer.
Record t : Type := mk
  { Architecture : string;
    InstallerType : string;
    InstallerURL : string;
    InstallerSha256 : string;
    Scope : string;
    InstallerSwitches : gmap string string;
    ProductCode : string }.
End Installer.

Module InstallerManifest.
Record t : Type := mk
  { PackageIdentifier : string;
    PackageVersion : string;
    Installers : list Installer.t;
    ManifestType : string;
    ManifestVersion : string }.
End InstallerManifest.

Module LocaleManifest.
Record t : Type := mk
  { PackageIdentifier : string;
    PackageVersion : string;
    PackageLocale : string;
    Publisher : string;
    PublisherURL : string;
    PublisherSupportURL : string;
    PackageName : string;
    License : string;
    LicenseURL : string;
    Copyright : string;
    ShortDescription : string;
    Description : string;
    Moniker : string;
    Tags : list string;
    PackageURL : string;
    ReleaseNotesURL : string;
    ManifestType : string;
    ManifestVersion : string }.
End LocaleManifest.

(** [ManifestSet]: the three documents ([GenerateManifests] never leaves one
    of the pointers nil) and the target path. *)
Module ManifestSet.
Record t : Type := mk
  { Version : VersionManifest.t;
    Installer : InstallerManifest.t;
    Locale : LocaleManifest.t;
    Path : string }.
End ManifestSet.

(** What [yaml.Marshal] is handed: one of the three documents. *)
Inductive Document : Type :=
| DocVersion (v : VersionManifest.t)
| DocInstaller (i : InstallerManifest.t)
| DocLocale (l : LocaleManifest.t).

(** [publisher[:1]]: slicing past the end of a string panics. *)
Definition slice_to_1 (s : string) : Outcome ascii :=
  match s with
  | EmptyString => Panic "runtime error: slice bounds out of range [:1] with length 0"
  | String c _ => Ret c
  end.

(** The loop over [cfg.Locales]: the description of the first ["en-US"]
    entry, and the zero value when there is none. *)
Fixpoint localeDescription (locales : list LocaleConfig.t) : string :=
  match locales with
  | [] => ""
  | locale :: rest =>
      if String.eqb (LocaleConfig.Locale locale) "en-US"
      then LocaleConfig.Description locale
      else localeDescription rest
  end.

(** [GenerateManifests]. *)
Definition GenerateManifests (cfg : Config.t) (version : string)
    (installers : list Installer.t) : Outcome (Result ManifestSet.t) :=
  match GoStrings.SplitN2 (Config.PackageID cfg) "." with
  | [publisher; _] =>
      let versionManifest :=
        VersionManifest.mk (Config.PackageID cfg) version "en-US" "version" ManifestVersion in
      let installerManifest :=
        InstallerManifest.mk (Config.PackageID cfg) version installers "installer" ManifestVersion in
      let md := Config.Metadata cfg in
      let localeManifest :=
        {| LocaleManifest.PackageIdentifier := Config.PackageID cfg;
           LocaleManifest.PackageVersion := version;
           LocaleManifest.PackageLocale := "en-US";
           LocaleManifest.Publisher := MetadataConfig.Publisher md;
           LocaleManifest.PublisherURL := MetadataConfig.PublisherURL md;
           LocaleManifest.PublisherSupportURL := MetadataConfig.PublisherSupportURL md;
           LocaleManifest.PackageName := MetadataConfig.Name md;
           LocaleManifest.License := MetadataConfig.License md;
           LocaleManifest.LicenseURL := MetadataConfig.LicenseURL md;
           LocaleManifest.Copyright := MetadataConfig.Copyright md;
           LocaleManifest.ShortDescription := MetadataConfig.ShortDescription md;
           LocaleManifest.Description := localeDescription (Config.Locales cfg);
           LocaleManifest.Moniker := MetadataConfig.Moniker md;
           LocaleManifest.Tags := MetadataConfig.Tags md;
           LocaleManifest.PackageURL := MetadataConfig.PackageURL md;
           LocaleManifest.ReleaseNotesURL := MetadataConfig.ReleaseNotesURL md;
           LocaleManifest.ManifestType := "defaultLocale";
           LocaleManifest.ManifestVersion := ManifestVersion |} in
      match slice_to_1 publisher with
      | Ret c =>
          let firstLetter := GoStrings.ToLower1 c in
          let path :=
            "manifests/" +:+ firstLetter +:+ "/" +:+ Config.PackageID cfg +:+ "/" +:+ version in
          Ret (Ok (ManifestSet.mk versionManifest installerManifest localeManifest path))
      | Panic msg => Panic msg
      | Diverge => Diverge
      end
  | _ => Ret (Err ("invalid package ID format: " +:+ Config.PackageID cfg))
  end.

(** [addYAMLHeader]. *)
Definition yamlHeader : string :=
  "# Created using Relicta" +:+ String "010" (
  "# yaml-language-server: $schema=https://aka.ms/winget-manifest.version.1.6.0.schema.json"
  +:+ String "010" (String "010" "")).

Definition addYAMLHeader (content : string) : string := yamlHeader +:+ content.

(** ** plugin.go: helpers *)

(** [isValidPackageID]. *)
Definition isValidPackageID (id : string) : bool :=
  if String.eqb id "" then false
  else match GoStrings.SplitN2 id "." with
       | [p0; p1] => negb (String.eqb p0 "") && negb (String.eqb p1 "")
       | _ => false
       end.

(** [isValidArchitecture]. *)
Definition isValidArchitecture (arch : string) : bool :=
  String.eqb arch "x86" || String.eqb arch "x64"
  || String.eqb arch "arm" || String.eqb arch "arm64".

(** [renderTemplate].  Go ranges over the [data] map in an order the runtime
    picks; here the pairs are taken in the order of the list. *)
Definition renderTemplate (tmpl : string) (data : list (string * string)) : string :=
  fold_left
    (fun result kv => GoStrings.ReplaceAll result ("{{." +:+ fst kv +:+ "}}") (snd kv))
    data tmpl.

(** The untyped configuration [map[string]any] of the host framework. *)
#[local] Set Warnings "-register-all".
Inductive any : Type :=
| any_nil
| any_bool (b : bool)
| any_number (x : Z)
| any_string (s : string)
| any_slice (l : list any)
| any_map (m : gmap string any).

(** [helpers.ValidationBuilder] of the plugin SDK, as the list of errors
    [AddError] accumulates, in order; [Build] reports it. *)
Module ValidationError.
Record t : Type := mk { Field : string; Message : string }.
End ValidationError.

Module ValidateResponse.
Record t : Type := mk { Valid : bool; Errors : list ValidationError.t }.
End ValidateResponse.

Definition AddError (vb : list ValidationError.t) (field message : string)
    : list ValidationError.t :=
  vb ++ [ValidationError.mk field message].

Definition Build (vb : list ValidationError.t) : ValidateResponse.t :=
  ValidateResponse.mk (match vb with [] => true | _ => false end) vb.

(** [plugin.ReleaseContext], [plugin.ExecuteRequest] and
    [plugin.ExecuteResponse] of the SDK, with the fields the plugin reads
    and writes.  [plugin.Hook] is a string type. *)
Module ReleaseContext.
Record t : Type := mk { Version : string }.
End ReleaseContext.

Module ExecuteRequest.
Record t : Type := mk
  { Hook : string;
    Config : gmap string any;
    Context : ReleaseContext.t;
    DryRun : bool }.
End ExecuteRequest.

Module ExecuteResponse.
Record t : Type := mk { Success : bool; Message : string }.
End ExecuteResponse.

(** ** net/http, as far as the program sees it *)

Module http.

Record Request : Type := mkRequest
  { Method : string;
    URL : string;
    Header : gmap string string;
    Body : option (list byte) }.

(** A response body is a stream: [data] is what can be read from it and
    [readErr] the error, if any, that ends the read instead of EOF. *)
Record ResponseBody : Type := mkBody
  { data : list byte; readErr : option error }.

Record Response : Type := mkResponse
  { StatusCode : Z; RespBody : ResponseBody }.

(** One round trip of the transport: a redirect the client is to follow
    (with the location it resolves to), any other response, or no response
    at all (connection failure, timeout, cancelled context). *)
Inductive RoundTrip : Type :=
| Redirect (loc : string)
| Respond (resp : Response)
| Fail (err : error).

Definition Header_Set (req : Request) (key value : string) : Request :=
  mkRequest (Method req) (URL req) (<[key := value]> (Header req)) (Body req).

Definition StatusOK : Z := 200.
Definition StatusCreated : Z := 201.
Definition StatusAccepted : Z := 202.

End http.

(** What the process does to the outside, in order. *)
Inductive Event : Type :=
| EvLog (msg : string) (attrs : list (string * string))
| EvDownload (req : http.Request)
| EvGitHub (req : http.Request)
| EvSleep (nanoseconds : Z).

Definition is_network (e : Event) : bool :=
  match e with
  | EvDownload _ | EvGitHub _ => true
  | _ => false
  end.

Definition is_github (e : Event) : bool :=
  match e with
  | EvGitHub _ => true
  | _ => false
  end.

(** [const] block of github.go. *)
Definition wingetPkgsOwner : string := "microsoft".
Definition wingetPkgsRepo : string := "winget-pkgs".
Definition githubAPIBase : string := "https://api.github.com".

(** [GitHubClient]; its [*http.Client] is the default client with a 60 s
    timeout, the oracle [defaultClientDo] below. *)
Record GitHubClient : Type := mkGitHubClient
  { token : string; forkOwner : string }.

(** [NewGitHubClient]. *)
Definition NewGitHubClient (token forkOwner : string) : GitHubClient :=
  mkGitHubClient token forkOwner.

(** [urlErrorOp] of net/http: ["Get"] for ["GET"]. *)
Definition urlErrorOp (method : string) : string :=
  match method with
  | EmptyString => "Get"
  | String c rest => String c (GoStrings.map_bytes GoStrings.lower_byte rest)
  end.

(** The [CheckRedirect] closure of [CalculateInstallerHash]:
    [if len(via) >= 10 { return fmt.Errorf("too many redirects") }]. *)
Definition installerCheckRedirect (req : http.Request) (via : list http.Request)
    : option error :=
  if (10 <=? length via)%nat then Some "too many redirects" else None.

Section Pipeline.

(** *** The environment: libraries and the network *)

(** [yaml.Marshal] of gopkg.in/yaml.v3. *)
Variable yaml_Marshal : Document -> Result string.
(** [json.Marshal] of a [map[string]string] literal, [json.Decoder.Decode]
    into a struct with one string field at the given path, and
    [base64.StdEncoding.EncodeToString]. *)
Variable json_Marshal : list (string * string) -> list byte.
Variable json_Decode : list string -> http.ResponseBody -> Result string.
Variable base64_EncodeToString : list byte -> string.
(** [strconv.Quote], used by [*url.Error]; and what [url.Parse] refuses
    ([None] for a URL it accepts). *)
Variable strconv_Quote : string -> string.
Variable url_Parse_error : string -> option error.
(** The order in which the runtime ranges over a map. *)
Variable range_order : gmap string string -> list (string * string).
(** [helpers.ConfigParser] of the plugin SDK: [GetString(key, envVar, def)]
    and [GetBool(key, def)] on the raw configuration. *)
Variable GetString : gmap string any -> string -> string -> string -> string.
Variable GetBool : gmap string any -> string -> bool -> bool.
(** [plugin.HookPostPublish]. *)
Variable HookPostPublish : string.

(** The network: [transport] answers one round trip of the installer
    client; [defaultClientDo] is [Do] of a client with the default redirect
    policy, as the GitHub client has. *)
Variable World : Type.
Variable transport : http.Request -> World -> http.RoundTrip * World.
Variable defaultClientDo : http.Request -> World -> Result http.Response * World.

(** *** The effect monad: the world, and the trace of events so far *)

Record State : Type := mkState { world : World; trace : list Event }.

Definition M (A : Type) : Type := State -> Outcome A * State.

Definition ret {A : Type} (a : A) : M A := fun s => (Ret a, s).

Definition bind {A B : Type} (m : M A) (k : A -> M B) : M B :=
  fun s =>
    match m s with
    | (Ret a, s') => k a s'
    | (Panic msg, s') => (Panic msg, s')
    | (Diverge, s') => (Diverge, s')
    end.

Definition lift {A : Type} (o : Outcome A) : M A := fun s => (o, s).

Definition emit (e : Event) : M unit :=
  fun s => (Ret tt, mkState (world s) (trace s ++ [e])).

Definition ask {A : Type} (e : Event) (oracle : World -> A * World) : M A :=
  fun s =>
    let '(a, w') := oracle (world s) in
    (Ret a, mkState w' (trace s ++ [e])).

Notation "'let*' x := m 'in' k" := (bind m (fun x => k))
  (at level 10, x name, m at level 100, k at level 200).
Notation "m ;; k" := (bind m (fun _ => k))
  (at level 100, k at level 200, right associativity).

(** [slog]: a logger is the attributes [With] gave it. *)
Definition Logger : Type := list (string * string).
Definition With (logger : Logger) (attrs : list (string * string)) : Logger :=
  logger ++ attrs.
Definition Info (logger : Logger) (msg : string) (attrs : list (string * string)) : M unit :=
  emit (EvLog msg (logger ++ attrs)).

(** [time.Sleep]. *)
Definition time_Sleep (d : Z) : M unit := emit (EvSleep d).
Definition time_Second : Z := 1000000000.

(** [http.NewRequestWithContext]: fails on a URL that does not parse. *)
Definition NewRequestWithContext (method url : string) (body : option (list byte))
    : Result http.Request :=
  match url_Parse_error url with
  | Some err => Err err
  | None => Ok (http.mkRequest method url ∅ body)
  end.

(** [*url.Error]: [Op "URL": Err]. *)
Definition url_Error (op url : string) (err : error) : error :=
  op +:+ " " +:+ strconv_Quote url +:+ ": " +:+ err.

(** [Do] of an [http.Client] with a [CheckRedirect] policy: the loop of
    [Client.do].  [reqs] are the requests made so far, oldest first; the
    policy is asked before each redirect is followed.  The loop has no bound
    of its own: [fuel] bounds the model, [Diverge] reports its exhaustion. *)
Fixpoint client_Do (CheckRedirect : http.Request -> list http.Request -> option error)
    (fuel : nat) (reqs : list http.Request) (req : http.Request)
    : M (Result http.Response) :=
  match fuel with
  | O => lift Diverge
  | S fuel' =>
      let* r := ask (EvDownload req) (transport req) in
      match r with
      | http.Fail err =>
          ret (Err (url_Error (urlErrorOp (http.Method req)) (http.URL req) err))
      | http.Respond resp => ret (Ok resp)
      | http.Redirect loc =>
          let reqs' := reqs ++ [req] in
          let next := http.mkRequest (http.Method req) loc (http.Header req) (http.Body req) in
          match CheckRedirect next reqs' with
          | Some err => ret (Err (url_Error (urlErrorOp (http.Method req)) loc err))
          | None => client_Do CheckRedirect fuel' reqs' next
          end
      end
  end.

(** [io.Copy(hash, resp.Body)] / [io.ReadAll]: everything, or the read error. *)
Definition io_ReadAll (body : http.ResponseBody) : Result (list byte) :=
  match http.readErr body with
  | Some err => Err err
  | None => Ok (http.data body)
  end.

(** *** hash.go *)

(** The installer client never makes more than ten requests (lemma
    [installer_client_fuel]): ten units of fuel are all it can use. *)
Definition installerClientFuel : nat := 10.

(** [CalculateInstallerHash]. *)
Definition CalculateInstallerHash (url : string) : M (Result string) :=
  match NewRequestWithContext "GET" url None with
  | Err err => ret (Err ("failed to create request: " +:+ err))
  | Ok req =>
      let req := http.Header_Set req "User-Agent" "Relicta-WinGet-Plugin/1.0" in
      let* r := client_Do installerCheckRedirect installerClientFuel [] req in
      match r with
      | Err err => ret (Err ("failed to download installer: " +:+ err))
      | Ok resp =>
          if negb (http.StatusCode resp =? http.StatusOK)%Z
          then ret (Err ("download failed with status "
                         +:+ GoStrings.fmt_d (http.StatusCode resp)))
          else
            match io_ReadAll (http.RespBody resp) with
            | Err err => ret (Err ("failed to calculate hash: " +:+ err))
            | Ok content =>
                ret (Ok (GoStrings.ToUpper
                           (GoStrings.hex_EncodeToString (SHA256.Sum256 content))))
            end
      end
  end.

(** *** github.go *)

(** [doRequestRaw]: the three headers (and the content type, with a body),
    then [g.client.Do]. *)
Definition doRequestRaw (g : GitHubClient) (req : http.Request)
    : M (Result http.Response) :=
  let req := http.Header_Set req "Authorization" ("Bearer " +:+ token g) in
  let req := http.Header_Set req "Accept" "application/vnd.github+json" in
  let req := http.Header_Set req "X-GitHub-Api-Version" "2022-11-28" in
  let req :=
    match http.Body req with
    | Some _ => http.Header_Set req "Content-Type" "application/json"
    | None => req
    end in
  ask (EvGitHub req) (defaultClientDo req).

(** [doRequest]; [path] names the one string field of the struct the
    callers decode into. *)
Definition doRequest (g : GitHubClient) (req : http.Request) (path : list string)
    : M (Result string) :=
  let* r := doRequestRaw g req in
  match r with
  | Err err => ret (Err err)
  | Ok resp =>
      if (400 <=? http.StatusCode resp)%Z
      then ret (Err ("API error " +:+ GoStrings.fmt_d (http.StatusCode resp) +:+ ": "
                     +:+ string_of_list_byte (http.data (http.RespBody resp))))
      else
        match json_Decode path (http.RespBody resp) with
        | Err err => ret (Err ("failed to decode response: " +:+ err))
        | Ok v => ret (Ok v)
        end
  end.

(** [getCurrentUser]. *)
Definition getCurrentUser (g : GitHubClient) : M (Result string) :=
  match NewRequestWithContext "GET" (githubAPIBase +:+ "/user") None with
  | Err err => ret (Err err)
  | Ok req => doRequest g req ["login"]
  end.

(** [forkExists]. *)
Definition forkExists (g : GitHubClient) (owner : string) : M (Result bool) :=
  let url := githubAPIBase +:+ "/repos/" +:+ owner +:+ "/" +:+ wingetPkgsRepo in
  match NewRequestWithContext "GET" url None with
  | Err err => ret (Err err)
  | Ok req =>
      let* r := doRequestRaw g req in
      match r with
      | Err err => ret (Err err)
      | Ok resp => ret (Ok (http.StatusCode resp =? http.StatusOK)%Z)
      end
  end.

(** [createFork]. *)
Definition createFork (g : GitHubClient) : M (Result unit) :=
  let url := githubAPIBase +:+ "/repos/" +:+ wingetPkgsOwner +:+ "/" +:+ wingetPkgsRepo
             +:+ "/forks" in
  match NewRequestWithContext "POST" url None with
  | Err err => ret (Err err)
  | Ok req =>
      let* r := doRequestRaw g req in
      match r with
      | Err err => ret (Err err)
      | Ok resp =>
          if negb (http.StatusCode resp =? http.StatusAccepted)%Z
             && negb (http.StatusCode resp =? http.StatusOK)%Z
          then ret (Err ("failed to create fork: "
                         +:+ string_of_list_byte (http.data (http.RespBody resp))))
          else ret (Ok tt)
      end
  end.

(** [EnsureFork]. *)
Definition EnsureFork (g : GitHubClient) : M (Result string) :=
  if negb (String.eqb (forkOwner g) "") then ret (Ok (forkOwner g))
  else
    let* r := getCurrentUser g in
    match r with
    | Err err => ret (Err ("failed to get current user: " +:+ err))
    | Ok user =>
        let* r := forkExists g user in
        match r with
        | Err err => ret (Err ("failed to check fork: " +:+ err))
        | Ok exists_ =>
            if exists_ then ret (Ok user)
            else
              let* r := createFork g in
              match r with
              | Err err => ret (Err ("failed to create fork: " +:+ err))
              | Ok _ =>
                  time_Sleep (5 * time_Second) ;;
                  ret (Ok user)
              end
        end
    end.

(** [getBranchSHA]. *)
Definition getBranchSHA (g : GitHubClient) (owner repo branch : string) : M (Result string) :=
  let url := githubAPIBase +:+ "/repos/" +:+ owner +:+ "/" +:+ repo
             +:+ "/git/ref/heads/" +:+ branch in
  match NewRequestWithContext "GET" url None with
  | Err err => ret (Err err)
  | Ok req => doRequest g req ["object"; "sha"]
  end.

(** [createBranch]. *)
Definition createBranch (g : GitHubClient) (owner branch sha : string) : M (Result unit) :=
  let url := githubAPIBase +:+ "/repos/" +:+ owner +:+ "/" +:+ wingetPkgsRepo
             +:+ "/git/refs" in
  let jsonBody := json_Marshal [("ref", "refs/heads/" +:+ branch); ("sha", sha)] in
  match NewRequestWithContext "POST" url (Some jsonBody) with
  | Err err => ret (Err err)
  | Ok req =>
      let* r := doRequestRaw g req in
      match r with
      | Err err => ret (Err err)
      | Ok resp =>
          if negb (http.StatusCode resp =? http.StatusCreated)%Z
          then ret (Err ("failed to create branch: "
                         +:+ string_of_list_byte (http.data (http.RespBody resp))))
          else ret (Ok tt)
      end
  end.

(** The body of the loop of [commitFiles], over the files still to commit. *)
Fixpoint commitFilesLoop (g : GitHubClient) (owner branch message : string)
    (files : list (string * string)) : M (Result unit) :=
  match files with
  | [] => ret (Ok tt)
  | (path, content) :: rest =>
      let url := githubAPIBase +:+ "/repos/" +:+ owner +:+ "/" +:+ wingetPkgsRepo
                 +:+ "/contents/" +:+ path in
      let jsonBody :=
        json_Marshal [("message", message);
                      ("content", base64_EncodeToString (list_byte_of_string content));
                      ("branch", branch)] in
      match NewRequestWithContext "PUT" url (Some jsonBody) with
      | Err err => ret (Err err)
      | Ok req =>
          let* r := doRequestRaw g req in
          match r with
          | Err err => ret (Err err)
          | Ok resp =>
              if negb (http.StatusCode resp =? http.StatusCreated)%Z
                 && negb (http.StatusCode resp =? http.StatusOK)%Z
              then ret (Err ("failed to create file " +:+ path +:+ ": status "
                             +:+ GoStrings.fmt_d (http.StatusCode resp)))
              else commitFilesLoop g owner branch message rest
          end
      end
  end.

(** [commitFiles]. *)
Definition commitFiles (g : GitHubClient) (owner branch : string)
    (files : gmap string string) (message : string) : M (Result unit) :=
  commitFilesLoop g owner branch message (range_order files).

(** [createPullRequest]. *)
Definition createPullRequest (g : GitHubClient) (forkOwner branch baseBranch title : string)
    : M (Result string) :=
  let url := githubAPIBase +:+ "/repos/" +:+ wingetPkgsOwner +:+ "/" +:+ wingetPkgsRepo
             +:+ "/pulls" in
  let jsonBody :=
    json_Marshal [("title", title);
                  ("head", forkOwner +:+ ":" +:+ branch);
                  ("base", baseBranch);
                  ("body", "This PR was automatically created by Relicta.")] in
  match NewRequestWithContext "POST" url (Some jsonBody) with
  | Err err => ret (Err err)
  | Ok req => doRequest g req ["html_url"]
  end.

(** *** manifests.go: serialisation *)

(** [toYAML] and the three [...YAML] methods. *)
Definition toYAML (v : Document) : Result string := yaml_Marshal v.
Definition VersionYAML (m : ManifestSet.t) : Result string :=
  toYAML (DocVersion (ManifestSet.Version m)).
Definition InstallerYAML (m : ManifestSet.t) : Result string :=
  toYAML (DocInstaller (ManifestSet.Installer m)).
Definition LocaleYAML (m : ManifestSet.t) : Result string :=
  toYAML (DocLocale (ManifestSet.Locale m)).

(** [GetFiles]. *)
Definition GetFiles (m : ManifestSet.t) : Result (gmap string string) :=
  let files : gmap string string := ∅ in
  match VersionYAML m with
  | Err err => Err ("failed to generate version manifest: " +:+ err)
  | Ok versionYAML =>
      let files :=
        <[ ManifestSet.Path m +:+ "/"
           +:+ VersionManifest.PackageIdentifier (ManifestSet.Version m) +:+ ".yaml"
           := addYAMLHeader versionYAML ]> files in
      match InstallerYAML m with
      | Err err => Err ("failed to generate installer manifest: " +:+ err)
      | Ok installerYAML =>
          let files :=
            <[ ManifestSet.Path m +:+ "/"
               +:+ InstallerManifest.PackageIdentifier (ManifestSet.Installer m)
               +:+ ".installer.yaml"
               := addYAMLHeader installerYAML ]> files in
          match LocaleYAML m with
          | Err err => Err ("failed to generate locale manifest: " +:+ err)
          | Ok localeYAML =>
              Ok (<[ ManifestSet.Path m +:+ "/"
                     +:+ LocaleManifest.PackageIdentifier (ManifestSet.Locale m)
                     +:+ ".locale.en-US.yaml"
                     := addYAMLHeader localeYAML ]> files)
          end
      end
  end.

(** [CreatePR]. *)
Definition CreatePR (g : GitHubClient) (manifests : ManifestSet.t) (cfg : PRConfig.t)
    : M (Result string) :=
  let* r :=
    (if String.eqb (forkOwner g) "" then getCurrentUser g else ret (Ok (forkOwner g))) in
  match r with
  | Err err => ret (Err err)
  | Ok forkOwner =>
      let* r := getBranchSHA g wingetPkgsOwner wingetPkgsRepo (PRConfig.BaseBranch cfg) in
      match r with
      | Err err => ret (Err ("failed to get base branch SHA: " +:+ err))
      | Ok baseSHA =>
          let id := VersionManifest.PackageIdentifier (ManifestSet.Version manifests) in
          let ver := VersionManifest.PackageVersion (ManifestSet.Version manifests) in
          let branchName :=
            "winget/" +:+ GoStrings.ReplaceAll id "." "-" +:+ "/" +:+ ver in
          let* r := createBranch g forkOwner branchName baseSHA in
          match r with
          | Err err => ret (Err ("failed to create branch: " +:+ err))
          | Ok _ =>
              match GetFiles manifests with
              | Err err => ret (Err ("failed to get manifest files: " +:+ err))
              | Ok files =>
                  let commitMessage := "New version: " +:+ id +:+ " version " +:+ ver in
                  let* r := commitFiles g forkOwner branchName files commitMessage in
                  match r with
                  | Err err => ret (Err ("failed to commit files: " +:+ err))
                  | Ok _ =>
                      let prTitle :=
                        renderTemplate (PRConfig.Title cfg)
                          [("PackageId", id); ("Version", ver)] in
                      let* r := createPullRequest g forkOwner branchName
                                  (PRConfig.BaseBranch cfg) prTitle in
                      match r with
                      | Err err => ret (Err ("failed to create PR: " +:+ err))
                      | Ok prURL => ret (Ok prURL)
                      end
                  end
              end
          end
      end
  end.

(** *** plugin.go *)

(** [v, ok := m[key].(string)], with the zero value kept when [ok] is false. *)
Definition string_field (m : gmap string any) (key : string) (zero : string) : string :=
  match m !! key with
  | Some (any_string v) => v
  | _ => zero
  end.

Definition bool_field (m : gmap string any) (key : string) (zero : bool) : bool :=
  match m !! key with
  | Some (any_bool v) => v
  | _ => zero
  end.

Definition any_to_string (v : any) : option string :=
  match v with
  | any_string s => Some s
  | _ => None
  end.

(** One installer entry of [parseConfig]; [Switches] keeps the string-valued
    switches. *)
Definition parseInstaller (m : gmap string any) : InstallerConfig.t :=
  {| InstallerConfig.URL := string_field m "url" "";
     InstallerConfig.Architecture := string_field m "architecture" "";
     InstallerConfig.Type' := string_field m "type" "";
     InstallerConfig.Scope := string_field m "scope" "";
     InstallerConfig.ProductCode := string_field m "product_code" "";
     InstallerConfig.Switches :=
       match m !! "switches" with
       | Some (any_map switches) => omap any_to_string switches
       | _ => ∅
       end |}.

Definition parseLocale (m : gmap string any) : LocaleConfig.t :=
  {| LocaleConfig.Locale := string_field m "locale" "";
     LocaleConfig.Description := string_field m "description" "" |}.

Definition parseMetadata (raw : gmap string any) : MetadataConfig.t :=
  match raw !! "metadata" with
  | Some (any_map metaRaw) =>
      {| MetadataConfig.Publisher := string_field metaRaw "publisher" "";
         MetadataConfig.PublisherURL := string_field metaRaw "publisher_url" "";
         MetadataConfig.PublisherSupportURL := string_field metaRaw "publisher_support_url" "";
         MetadataConfig.Name := string_field metaRaw "name" "";
         MetadataConfig.ShortDescription := string_field metaRaw "short_description" "";
         MetadataConfig.License := string_field metaRaw "license" "";
         MetadataConfig.LicenseURL := string_field metaRaw "license_url" "";
         MetadataConfig.Copyright := string_field metaRaw "copyright" "";
         MetadataConfig.PackageURL := string_field metaRaw "package_url" "";
         MetadataConfig.Moniker := string_field metaRaw "moniker" "";
         MetadataConfig.ReleaseNotesURL := string_field metaRaw "release_notes_url" "";
         MetadataConfig.Tags :=
           match metaRaw !! "tags" with
           | Some (any_slice tags) => omap any_to_string tags
           | _ => []
           end |}
  | _ => MetadataConfig.mk "" "" "" "" "" "" "" "" "" [] "" ""
  end.

Definition parsePRConfig (raw : gmap string any) : PRConfig.t :=
  let title := "New version: {{.PackageId}} version {{.Version}}" in
  match raw !! "pull_request" with
  | Some (any_map prRaw) =>
      {| PRConfig.ForkOwner := string_field prRaw "fork_owner" "";
         PRConfig.BaseBranch := string_field prRaw "base_branch" "master";
         PRConfig.Title := string_field prRaw "title" title;
         PRConfig.DeleteBranch := bool_field prRaw "delete_branch" true |}
  | _ => PRConfig.mk "" "master" title true
  end.

(** [parseConfig]. *)
Definition parseConfig (raw : gmap string any) : Config.t :=
  let as_map item := match item with any_map m => Some m | _ => None end in
  let installers :=
    match raw !! "installers" with
    | Some (any_slice installersRaw) => parseInstaller <$> omap as_map installersRaw
    | _ => []
    end in
  let locales :=
    match raw !! "locales" with
    | Some (any_slice localesRaw) => parseLocale <$> omap as_map localesRaw
    | _ => []
    end in
  {| Config.PackageID := GetString raw "package_id" "" "";
     Config.GitHubToken := GetString raw "github_token" "GITHUB_TOKEN" "";
     Config.Installers := installers;
     Config.Metadata := parseMetadata raw;
     Config.Locales := locales;
     Config.PullRequest := parsePRConfig raw;
     Config.Validate := GetBool raw "validate" true;
     Config.TestInstall := GetBool raw "test_install" false;
     Config.DryRun := GetBool raw "dry_run" false |}.

(** The loop of [Validate] over [cfg.Installers], from index [i]. *)
Fixpoint validateInstallers (vb : list ValidationError.t) (i : Z)
    (installers : list InstallerConfig.t) : list ValidationError.t :=
  match installers with
  | [] => vb
  | installer :: rest =>
      let vb :=
        if String.eqb (InstallerConfig.URL installer) ""
        then AddError vb ("installers[" +:+ GoStrings.fmt_d i +:+ "].url")
               "Installer URL is required"
        else vb in
      let vb :=
        if negb (isValidArchitecture (InstallerConfig.Architecture installer))
        then AddError vb ("installers[" +:+ GoStrings.fmt_d i +:+ "].architecture")
               "Architecture must be x86, x64, arm, or arm64"
        else vb in
      validateInstallers vb (i + 1) rest
  end.

(** [Validate], on the parsed configuration. *)
Definition validateConfig (cfg : Config.t) : ValidateResponse.t :=
  let vb : list ValidationError.t := [] in
  let vb :=
    if negb (isValidPackageID (Config.PackageID cfg))
    then AddError vb "package_id" "Package ID must be in format Publisher.PackageName"
    else vb in
  let vb :=
    if String.eqb (Config.GitHubToken cfg) ""
    then AddError vb "github_token" "GitHub token is required"
    else vb in
  let vb :=
    if (length (Config.Installers cfg) =? 0)%nat
    then AddError vb "installers" "At least one installer is required"
    else vb in
  let vb := validateInstallers vb 0 (Config.Installers cfg) in
  let md := Config.Metadata cfg in
  let vb :=
    if String.eqb (MetadataConfig.Publisher md) ""
    then AddError vb "metadata.publisher" "Publisher is required"
    else vb in
  let vb :=
    if String.eqb (MetadataConfig.Name md) ""
    then AddError vb "metadata.name" "Package name is required"
    else vb in
  let vb :=
    if String.eqb (MetadataConfig.ShortDescription md) ""
    then AddError vb "metadata.short_description" "Short description is required"
    else if (256 <? String.length (MetadataConfig.ShortDescription md))%nat
    then AddError vb "metadata.short_description"
           "Short description must be <= 256 characters"
    else vb in
  let vb :=
    if String.eqb (MetadataConfig.License md) ""
    then AddError vb "metadata.license" "License is required"
    else vb in
  Build vb.

(** [Validate]: [cfg := p.parseConfig(config)], then the checks; the error
    it returns is always nil. *)
Definition Validate (config : gmap string any) : Result ValidateResponse.t :=
  Ok (validateConfig (parseConfig config)).

(** The placeholder digest of a dry run. *)
Definition dryRunHash : string :=
  "0000000000000000000000000000000000000000000000000000000000000000".

(** The loop of [executePostPublish] over [cfg.Installers], from index [i];
    [installers] is the slice built so far.  [inl] is the early return on a
    failed hash. *)
Fixpoint installersLoop (dryRun : bool) (version : string) (logger : Logger) (i : Z)
    (todo : list InstallerConfig.t) (installers : list Installer.t)
    : M (ExecuteResponse.t + list Installer.t) :=
  match todo with
  | [] => ret (inr installers)
  | installerCfg :: rest =>
      let url := renderTemplate (InstallerConfig.URL installerCfg) [("Version", version)] in
      Info logger "Processing installer"
        [("index", GoStrings.fmt_d i);
         ("architecture", InstallerConfig.Architecture installerCfg);
         ("url", url)] ;;
      let* h :=
        (if dryRun
         then Info logger "[DRY-RUN] Would download and hash installer" [] ;;
              ret (Ok dryRunHash)
         else CalculateInstallerHash url) in
      match h with
      | Err err =>
          ret (inl (ExecuteResponse.mk false
                      ("Failed to calculate hash for installer " +:+ GoStrings.fmt_d i
                       +:+ ": " +:+ err)))
      | Ok hash =>
          let installer :=
            {| Installer.Architecture := InstallerConfig.Architecture installerCfg;
               Installer.InstallerType := InstallerConfig.Type' installerCfg;
               Installer.InstallerURL := url;
               Installer.InstallerSha256 := hash;
               Installer.Scope := InstallerConfig.Scope installerCfg;
               Installer.ProductCode := InstallerConfig.ProductCode installerCfg;
               Installer.InstallerSwitches :=
                 if (0 <? size (InstallerConfig.Switches installerCfg))%nat
                 then InstallerConfig.Switches installerCfg
                 else ∅ |} in
          installersLoop dryRun version logger (i + 1) rest (installers ++ [installer])
      end
  end.

(** [y, _ := m.VersionYAML()]: the empty string when marshalling fails. *)
Definition ignore_err (r : Result string) : string :=
  match r with
  | Ok y => y
  | Err _ => ""
  end.

(** [executePostPublish]. *)
Definition executePostPublish (releaseCtx : ReleaseContext.t) (cfg : Config.t)
    (logger : Logger) : M (Result ExecuteResponse.t) :=
  let version := ReleaseContext.Version releaseCtx in
  let logger := With logger [("version", version); ("package_id", Config.PackageID cfg)] in
  Info logger "Calculating installer hashes" [] ;;
  let* r := installersLoop (Config.DryRun cfg) version logger 0 (Config.Installers cfg) [] in
  match r with
  | inl resp => ret (Ok resp)
  | inr installers =>
      Info logger "Generating manifests" [] ;;
      let* gm := lift (GenerateManifests cfg version installers) in
      match gm with
      | Err err =>
          ret (Ok (ExecuteResponse.mk false ("Failed to generate manifests: " +:+ err)))
      | Ok manifests =>
          if Config.DryRun cfg then
            Info logger "[DRY-RUN] Generated manifests"
              [("path", ManifestSet.Path manifests);
               ("installers", GoStrings.fmt_d (Z.of_nat (length installers)))] ;;
            let versionYAML := ignore_err (VersionYAML manifests) in
            let installerYAML := ignore_err (InstallerYAML manifests) in
            let localeYAML := ignore_err (LocaleYAML manifests) in
            Info logger "[DRY-RUN] Version manifest" [("content", versionYAML)] ;;
            Info logger "[DRY-RUN] Installer manifest" [("content", installerYAML)] ;;
            Info logger "[DRY-RUN] Locale manifest" [("content", localeYAML)] ;;
            ret (Ok (ExecuteResponse.mk true
                       ("[DRY-RUN] Would create PR for " +:+ Config.PackageID cfg
                        +:+ " version " +:+ version)))
          else
            Info logger "Creating pull request to winget-pkgs" [] ;;
            let ghClient :=
              NewGitHubClient (Config.GitHubToken cfg)
                (PRConfig.ForkOwner (Config.PullRequest cfg)) in
            Info logger "Ensuring fork of winget-pkgs exists" [] ;;
            let* r := EnsureFork ghClient in
            match r with
            | Err err =>
                ret (Ok (ExecuteResponse.mk false ("Failed to ensure fork: " +:+ err)))
            | Ok forkOwner =>
                Info logger "Using fork" [("owner", forkOwner)] ;;
                let* r := CreatePR ghClient manifests (Config.PullRequest cfg) in
                match r with
                | Err err =>
                    ret (Ok (ExecuteResponse.mk false ("Failed to create PR: " +:+ err)))
                | Ok prURL =>
                    Info logger "Pull request created" [("url", prURL)] ;;
                    ret (Ok (ExecuteResponse.mk true
                               ("Created PR for " +:+ Config.PackageID cfg +:+ " version "
                                +:+ version +:+ ": " +:+ prURL)))
                end
            end
      end
  end.

(** [cfg.DryRun = cfg.DryRun || req.DryRun]. *)
Definition withDryRun (cfg : Config.t) (dryRun : bool) : Config.t :=
  Config.mk (Config.PackageID cfg) (Config.GitHubToken cfg) (Config.Installers cfg)
    (Config.Metadata cfg) (Config.Locales cfg) (Config.PullRequest cfg)
    (Config.Validate cfg) (Config.TestInstall cfg) (Config.DryRun cfg || dryRun).

(** [Execute]. *)
Definition Execute (req : ExecuteRequest.t) : M (Result ExecuteResponse.t) :=
  let cfg := parseConfig (ExecuteRequest.Config req) in
  let cfg := withDryRun cfg (ExecuteRequest.DryRun req) in
  let logger := With [] [("plugin", "winget"); ("hook", ExecuteRequest.Hook req)] in
  if String.eqb (ExecuteRequest.Hook req) HookPostPublish
  then executePostPublish (ExecuteRequest.Context req) cfg logger
  else ret (Ok (ExecuteResponse.mk true
                  ("Hook " +:+ ExecuteRequest.Hook req +:+ " not handled by winget plugin"))).

(** *** Sample environments, for the concrete instances below *)

(** A stand-in serialiser: the identifier and version lines of a document. *)
Definition sample_yaml (d : Document) : Result string :=
  let lines id ver :=
    "PackageIdentifier: " +:+ id +:+ String "010" ("PackageVersion: " +:+ ver +:+ String "010" "") in
  match d with
  | DocVersion v =>
      Ok (lines (VersionManifest.PackageIdentifier v) (VersionManifest.PackageVersion v))
  | DocInstaller i =>
      Ok (lines (InstallerManifest.PackageIdentifier i) (InstallerManifest.PackageVersion i))
  | DocLocale l =>
      Ok (lines (LocaleManifest.PackageIdentifier l) (LocaleManifest.PackageVersion l))
  end.

Definition sample_json_Marshal (kvs : list (string * string)) : list byte :=
  list_byte_of_string
    (fold_right (fun kv acc => fst kv +:+ "=" +:+ snd kv +:+ ";" +:+ acc) "" kvs).

(** A stand-in decoder: the body is the value of the field asked for. *)
Definition sample_json_Decode (path : list string) (body : http.ResponseBody)
    : Result string :=
  match http.readErr body with
  | Some err => Err err
  | None => Ok (string_of_list_byte (http.data body))
  end.

Definition sample_base64 (b : list byte) : string := string_of_list_byte b.
Definition sample_Quote (s : string) : string := String "034" (s +:+ String "034" "").
Definition sample_url_Parse_error (url : string) : option error := None.
Definition sample_range_order (m : gmap string string) : list (string * string) :=
  map_to_list m.
Definition sample_GetString (raw : gmap string any) (key envVar def : string) : string :=
  string_field raw key def.
Definition sample_GetBool (raw : gmap string any) (key : string) (def : bool) : bool :=
  bool_field raw key def.

(** A scripted network: the installer host answers [redirects] requests
    with a redirect and then serves [final]; the API answers with the
    entries of [api], in order. *)
Record SampleWorld : Type := mkSampleWorld
  { redirects : nat;
    final : http.Response;
    api : list (Result http.Response) }.

Definition sample_transport (req : http.Request) (w : SampleWorld)
    : http.RoundTrip * SampleWorld :=
  match redirects w with
  | S k => (http.Redirect (http.URL req +:+ "/r"), mkSampleWorld k (final w) (api w))
  | O => (http.Respond (final w), w)
  end.

Definition sample_defaultClientDo (req : http.Request) (w : SampleWorld)
    : Result http.Response * SampleWorld :=
  match api w with
  | r :: rest => (r, mkSampleWorld (redirects w) (final w) rest)
  | [] => (Err "connection refused", w)
  end.

Definition sample_response (status : Z) (body : string) : http.Response :=
  http.mkResponse status (http.mkBody (list_byte_of_string body) None).

Definition sample_metadata : MetadataConfig.t :=
  MetadataConfig.mk "My Organization" "https://myorg.com" "" "My Application"
    "A useful application" "MIT" "" "" "" ["utility"; "productivity"] "myapp" "".

Definition sample_installer_config : InstallerConfig.t :=
  InstallerConfig.mk "https://example.com/myapp-{{.Version}}-x64.msi" "x64" "msi" ∅ "" "".

Definition sample_config (id : string) (dryRun : bool) : Config.t :=
  Config.mk id "test-token" [sample_installer_config] sample_metadata
    [LocaleConfig.mk "en-US" "A full description of the application"]
    (PRConfig.mk "" "master" "New version: {{.PackageId}} version {{.Version}}" true)
    true false dryRun.

(** ["Édition.App"], byte by byte: the first character is the two bytes
    0xC3 0x89. *)
Definition sample_non_ascii_id : string :=
  String (ascii_of_N 195) (String (ascii_of_N 137) "dition.App").

(** *** What the claims speak of *)

(** The errors a response reports on one field path. *)
Definition fieldErrors (field : string) (resp : ValidateResponse.t) : list ValidationError.t :=
  List.filter (fun e => String.eqb (ValidationError.Field e) field) (ValidateResponse.Errors resp).

(** [follows w req hops w' req']: from [req] in world [w], the transport
    answers each request of [hops] with a redirect, which leads to the
    request [req'] in world [w']. *)
Inductive follows : World -> http.Request -> list http.Request
                    -> World -> http.Request -> Prop :=
| follows_nil (w : World) (req : http.Request) : follows w req [] w req
| follows_cons (w w1 w' : World) (req req' : http.Request) (loc : string)
    (hops : list http.Request) :
    transport req w = (http.Redirect loc, w1) ->
    follows w1 (http.mkRequest (http.Method req) loc (http.Header req) (http.Body req))
      hops w' req' ->
    follows w req (req :: hops) w' req'.

(** The request [CalculateInstallerHash] starts from. *)
Definition installerRequest (url : string) : http.Request :=
  http.Header_Set (http.mkRequest "GET" url ∅ None)
    "User-Agent" "Relicta-WinGet-Plugin/1.0".

(** A string of [n] copies of a byte. *)
Fixpoint repeat_byte (c : ascii) (n : nat) : string :=
  match n with
  | O => EmptyString
  | S n' => String c (repeat_byte c n')
  end.

(** [sep] does not occur in [s]. *)
Definition no_sep (sep : ascii) (s : string) : Prop :=
  ~ In sep (list_ascii_of_string s).

(** The identifier is [<Namespace>.<Name>], cut at its first separator. *)
Definition split_at_first_dot (id ns name : string) : Prop :=
  id = ns +:+ String "." name /\ no_sep "." ns.

(** The installer record a dry run builds for a configured installer. *)
Definition dry_run_installer_of (version : string) (installerCfg : InstallerConfig.t)
    (installer : Installer.t) : Prop :=
  Installer.InstallerSha256 installer = dryRunHash
  /\ Installer.InstallerURL installer
     = renderTemplate (InstallerConfig.URL installerCfg) [("Version", version)]
  /\ Installer.Architecture installer = InstallerConfig.Architecture installerCfg
  /\ Installer.InstallerType installer = InstallerConfig.Type' installerCfg.

(** The installer record a dry run hands to the manifests: the configured
    fields, the URL rendered for the version and, for the digest, the
    placeholder of 64 zeros. *)
Definition dry_run_installer (version : string) (installerCfg : InstallerConfig.t)
    : Installer.t :=
  {| Installer.Architecture := InstallerConfig.Architecture installerCfg;
     Installer.InstallerType := InstallerConfig.Type' installerCfg;
     Installer.InstallerURL :=
       renderTemplate (InstallerConfig.URL installerCfg) [("Version", version)];
     Installer.InstallerSha256 := repeat_byte "0" 64;
     Installer.Scope := InstallerConfig.Scope installerCfg;
     Installer.InstallerSwitches := InstallerConfig.Switches installerCfg;
     Installer.ProductCode := InstallerConfig.ProductCode installerCfg |}.

(** The line a logger writes. *)
Definition logged (logger : Logger) (msg : string) (attrs : list (string * string))
    : Event :=
  EvLog msg (logger ++ attrs).

(** What a dry run logs for the installers, from index [i]: two lines each,
    and no request. *)
Fixpoint dry_run_hash_log (logger : Logger) (version : string) (i : Z)
    (todo : list InstallerConfig.t) : list Event :=
  match todo with
  | [] => []
  | installerCfg :: rest =>
      logged logger "Processing installer"
        [("index", GoStrings.fmt_d i);
         ("architecture", InstallerConfig.Architecture installerCfg);
         ("url", renderTemplate (InstallerConfig.URL installerCfg) [("Version", version)])]
      :: logged logger "[DRY-RUN] Would download and hash installer" []
      :: dry_run_hash_log logger version (i + 1) rest
  end.

(** The whole log of a dry run that hands [installers] to
    [GenerateManifests]: the lines of the hashing stage, then the manifests
    that come out of these installers, serialised. *)
Definition dry_run_log (logger : Logger) (version : string) (cfg : Config.t)
    (installers : list Installer.t) : list Event :=
  let logger := With logger [("version", version); ("package_id", Config.PackageID cfg)] in
  logged logger "Calculating installer hashes" []
  :: dry_run_hash_log logger version 0 (Config.Installers cfg)
  ++ logged logger "Generating manifests" []
  :: match GenerateManifests cfg version installers with
     | Ret (Ok manifests) =>
         [logged logger "[DRY-RUN] Generated manifests"
            [("path", ManifestSet.Path manifests);
             ("installers", GoStrings.fmt_d (Z.of_nat (length installers)))];
          logged logger "[DRY-RUN] Version manifest"
            [("content", ignore_err (VersionYAML manifests))];
          logged logger "[DRY-RUN] Installer manifest"
            [("content", ignore_err (InstallerYAML manifests))];
          logged logger "[DRY-RUN] Locale manifest"
            [("content", ignore_err (LocaleYAML manifests))]]
     | _ => []
     end.

(** What a dry run that hands [installers] to [GenerateManifests] returns. *)
Definition dry_run_outcome (version : string) (cfg : Config.t)
    (installers : list Installer.t) : Outcome (Result ExecuteResponse.t) :=
  match GenerateManifests cfg version installers with
  | Ret (Ok _) =>
      Ret (Ok (ExecuteResponse.mk true
                 ("[DRY-RUN] Would create PR for " +:+ Config.PackageID cfg
                  +:+ " version " +:+ version)))
  | Ret (Err err) =>
      Ret (Ok (ExecuteResponse.mk false ("Failed to generate manifests: " +:+ err)))
  | Panic msg => Panic msg
  | Diverge => Diverge
  end.

(** The number of characters of a UTF-8 text: its bytes but those that
    continue a character (0x80 to 0xBF). *)
Fixpoint characters (s : string) : nat :=
  match s with
  | EmptyString => 0
  | String c s' =>
      (if ((128 <=? N_of_ascii c) && (N_of_ascii c <=? 191))%N then 0 else 1)
      + characters s'
  end.

(** [n] copies of a text. *)
Fixpoint repeat_text (t : string) (n : nat) : string :=
  match n with
  | O => EmptyString
  | S n' => t +:+ repeat_text t n'
  end.

(** A short description of 129 characters, each the two bytes 0xC3 0xA9 of
    U+00E9, and a configuration that holds it. *)
Definition description_129 : string :=
  repeat_text (String (ascii_of_N 195) (String (ascii_of_N 169) "")) 129.
Definition config_description_129 : gmap string any :=
  {[ "metadata" := any_map {[ "short_description" := any_string description_129 ]} ]}.

(** The URLs [forkExists] and [createFork] ask for. *)
Definition forkProbeURL (owner : string) : string :=
  githubAPIBase +:+ "/repos/" +:+ owner +:+ "/" +:+ wingetPkgsRepo.
Definition forkCreateURL : string :=
  githubAPIBase +:+ "/repos/" +:+ wingetPkgsOwner +:+ "/" +:+ wingetPkgsRepo +:+ "/forks".

(** The suffix the sample host appends to a URL at each redirect, [k] times. *)
Fixpoint repeat_r (k : nat) : string :=
  match k with
  | O => EmptyString
  | S k' => repeat_r k' +:+ "/r"
  end.

(** * Properties *)

(** ** Strings *)

Lemma append_cons (c : ascii) (s1 s2 : string) :
  String c s1 +:+ s2 = String c (s1 +:+ s2).
Proof. reflexivity. Qed.

Lemma append_nil_l (s : string) : "" +:+ s = s.
Proof. reflexivity. Qed.

Lemma length_append (s1 s2 : string) :
  String.length (s1 +:+ s2) = String.length s1 + String.length s2.
Proof.
  induction s1 as [|c s1 IH]; [reflexivity |].
  rewrite append_cons. simpl. now rewrite IH.
Qed.

Lemma append_inv_head (s a b : string) : s +:+ a = s +:+ b -> a = b.
Proof.
  induction s as [|c s IH]; [trivial |].
  rewrite !append_cons. intros H. injection H. exact IH.
Qed.

Lemma append_assoc (a b c : string) : (a +:+ b) +:+ c = a +:+ (b +:+ c).
Proof.
  induction a as [|x a IH]; [reflexivity |].
  rewrite !append_cons. now rewrite IH.
Qed.

Lemma prefix_append (p s : string) : String.prefix p (p +:+ s) = true.
Proof.
  induction p as [|c p IH]; [now destruct s |].
  rewrite append_cons. simpl.
  destruct (ascii_dec c c) as [_|n]; [assumption | now destruct n].
Qed.

Lemma length_map_bytes (f : ascii -> ascii) (s : string) :
  String.length (GoStrings.map_bytes f s) = String.length s.
Proof. induction s as [|c s IH]; simpl; [reflexivity | now rewrite IH]. Qed.

Lemma length_hex_EncodeToString (src : list byte) :
  String.length (GoStrings.hex_EncodeToString src) = 2 * length src.
Proof. induction src as [|v src IH]; simpl; [reflexivity | rewrite IH; lia]. Qed.

(** What [hex.EncodeToString] writes is ASCII: [strings.ToUpper] stays on
    its ASCII path. *)
Lemma hex_isASCII (src : list byte) :
  GoStrings.isASCII (GoStrings.hex_EncodeToString src) = true.
Proof.
  unfold GoStrings.isASCII.
  induction src as [|v src IH]; [reflexivity |].
  cbn [GoStrings.hex_EncodeToString list_ascii_of_string forallb].
  rewrite IH. now destruct v.
Qed.

Lemma upper_hex_byte (v : byte) :
  GoStrings.is_upper_hex
    (GoStrings.upper_byte (GoStrings.hex_digit (N.shiftr (Byte.to_N v) 4))) = true
  /\ GoStrings.is_upper_hex
       (GoStrings.upper_byte (GoStrings.hex_digit (N.land (Byte.to_N v) 15))) = true.
Proof. destruct v; split; vm_compute; reflexivity. Qed.

Lemma upper_hex_encode (src : list byte) :
  forallb GoStrings.is_upper_hex
    (list_ascii_of_string (GoStrings.ToUpper (GoStrings.hex_EncodeToString src))) = true.
Proof.
  induction src as [|v src IH]; [reflexivity |].
  unfold GoStrings.ToUpper in *.
  cbn [GoStrings.hex_EncodeToString GoStrings.map_bytes list_ascii_of_string forallb].
  destruct (upper_hex_byte v) as [-> ->]. exact IH.
Qed.

(** ** crypto/sha256 *)

Lemma length_digest_bytes (d : SHA256.digest) : length (SHA256.digest_bytes d) = 32.
Proof. reflexivity. Qed.

Lemma length_Sum256 (data : list byte) : length (SHA256.Sum256 data) = 32.
Proof. unfold SHA256.Sum256. apply length_digest_bytes. Qed.

(** The three vectors of [TestCalculateHashFromBytes]. *)
Example hash_hello :
  CalculateHashFromBytes (list_byte_of_string "hello")
  = "2CF24DBA5FB0A30E26E83B2AC5B9E29E1B161E5C1FA7425E73043362938B9824".
Proof. vm_compute. reflexivity. Qed.

Example hash_test_content :
  CalculateHashFromBytes (list_byte_of_string "test installer content")
  = "19EB2AA2B331FDAA7935E86424A3AA04BAF374AD7DE0DDDB57D5F0F3B7030934".
Proof. vm_compute. reflexivity. Qed.

(** C6. [CalculateHashFromBytes] returns the upper-case hexadecimal encoding
    of the SHA-256 digest of its input: on the empty byte sequence it is
    E3B0C442...7852B855, on every input it is 64 characters long, all of
    them among 0-9 and A-F, and equal inputs give equal results. *)
Theorem CalculateHashFromBytes_upper_hex_sha256 :
  CalculateHashFromBytes []
  = "E3B0C44298FC1C149AFBF4C8996FB92427AE41E4649B934CA495991B7852B855"
  /\ (forall data : list byte,
        CalculateHashFromBytes data
        = GoStrings.ToUpper (GoStrings.hex_EncodeToString (SHA256.Sum256 data))
        /\ String.length (CalculateHashFromBytes data) = 64
        /\ forallb GoStrings.is_upper_hex
             (list_ascii_of_string (CalculateHashFromBytes data)) = true)
  /\ (forall d1 d2 : list byte,
        d1 = d2 -> CalculateHashFromBytes d1 = CalculateHashFromBytes d2).
Proof.
  split; [vm_compute; reflexivity |].
  split.
  - intros data. unfold CalculateHashFromBytes.
    split; [reflexivity |].
    split; [| apply upper_hex_encode].
    unfold GoStrings.ToUpper.
    rewrite length_map_bytes, length_hex_EncodeToString, length_Sum256. reflexivity.
  - intros d1 d2 ->. reflexivity.
Qed.

(** ** plugin.go: the helpers, on the tables of the test file *)

Example isValidPackageID_table :
  map isValidPackageID
    ["MyOrg.MyApp"; "Microsoft.VisualStudioCode"; "Publisher.Package";
     "InvalidPackageID"; ""; ".Package"; "Publisher."; "Publisher.Sub.Package"]
  = [true; true; true; false; false; false; false; true].
Proof. reflexivity. Qed.

Example isValidArchitecture_table :
  map isValidArchitecture ["x86"; "x64"; "arm"; "arm64"; ""; "amd64"; "i386"]
  = [true; true; true; true; false; false; false].
Proof. reflexivity. Qed.

Example renderTemplate_table :
  renderTemplate "https://example.com/app-{{.Version}}.msi" [("Version", "1.0.0")]
  = "https://example.com/app-1.0.0.msi"
  /\ renderTemplate "{{.PackageId}} version {{.Version}}"
       [("PackageId", "MyOrg.MyApp"); ("Version", "2.0.0")]
     = "MyOrg.MyApp version 2.0.0"
  /\ renderTemplate "https://example.com/app.msi" [("Version", "1.0.0")]
     = "https://example.com/app.msi"
  /\ renderTemplate "{{.Name}} {{.Missing}}" [("Name", "Test")] = "Test {{.Missing}}".
Proof. repeat split; reflexivity. Qed.

(** ** manifests.go *)

Lemma cut_split (sep : ascii) (s a b : string) :
  GoStrings.cut sep s = Some (a, b) <-> s = a +:+ String sep b /\ no_sep sep a.
Proof.
  revert a b. induction s as [|c s IH]; intros a b; simpl.
  - split; [discriminate |]. intros [H _]. destruct a; discriminate.
  - destruct (Ascii.eqb_spec c sep) as [->|Hne].
    + split.
      * intros [= <- <-]. split; [reflexivity | intros []].
      * intros [H Hno]. destruct a as [|x a].
        -- now injection H as ->.
        -- rewrite append_cons in H. injection H as -> _.
           exfalso. apply Hno. now left.
    + destruct (GoStrings.cut sep s) as [[a' b']|] eqn:E.
      * split.
        -- intros [= <- <-]. destruct (proj1 (IH a' b') eq_refl) as [-> Hno].
           split; [reflexivity |]. intros [->|Hin]; [now apply Hne | now apply Hno].
        -- intros [H Hno]. destruct a as [|x a].
           ++ injection H as ->. now destruct Hne.
           ++ rewrite append_cons in H. injection H as -> ->.
              assert (Some (a', b') = Some (a, b)) as [= -> ->]; [| reflexivity].
              apply IH. split; [reflexivity |].
              intros Hin. apply Hno. now right.
      * split; [discriminate |]. intros [H Hno]. destruct a as [|x a].
        -- injection H as ->. now destruct Hne.
        -- rewrite append_cons in H. injection H as -> ->.
           assert (None = Some (a, b)); [| discriminate].
           apply IH. split; [reflexivity |].
           intros Hin. apply Hno. now right.
Qed.

Lemma cut_None (sep : ascii) (s : string) :
  GoStrings.cut sep s = None <-> no_sep sep s.
Proof.
  induction s as [|c s IH]; simpl.
  - split; [intros _ [] | reflexivity].
  - destruct (Ascii.eqb_spec c sep) as [->|Hne].
    + split; [discriminate |]. intros H. destruct H. now left.
    + destruct (GoStrings.cut sep s) as [[a b]|].
      * split; [discriminate |]. intros H.
        assert (Some (a, b) = None); [| discriminate].
        apply IH. intros Hin. apply H. now right.
      * split; [| reflexivity]. intros _ [->|Hin]; [now apply Hne |].
        now apply (proj1 IH).
Qed.

(** What [GenerateManifests] does, by the shape of the identifier. *)
Lemma GenerateManifests_no_separator (cfg : Config.t) (version : string)
    (installers : list Installer.t) :
  no_sep "." (Config.PackageID cfg) ->
  GenerateManifests cfg version installers
  = Ret (Err ("invalid package ID format: " +:+ Config.PackageID cfg)).
Proof.
  intros H. apply cut_None in H.
  unfold GenerateManifests, GoStrings.SplitN2. now rewrite H.
Qed.

Lemma GenerateManifests_empty_namespace (cfg : Config.t) (version name : string)
    (installers : list Installer.t) :
  Config.PackageID cfg = String "." name ->
  GenerateManifests cfg version installers
  = Panic "runtime error: slice bounds out of range [:1] with length 0".
Proof.
  intros H. unfold GenerateManifests, GoStrings.SplitN2. rewrite H. reflexivity.
Qed.

Lemma GenerateManifests_split (cfg : Config.t) (version : string)
    (installers : list Installer.t) (c : ascii) (ns name : string) :
  split_at_first_dot (Config.PackageID cfg) (String c ns) name ->
  exists ms,
    GenerateManifests cfg version installers = Ret (Ok ms)
    /\ VersionManifest.PackageIdentifier (ManifestSet.Version ms) = Config.PackageID cfg
    /\ VersionManifest.PackageVersion (ManifestSet.Version ms) = version
    /\ InstallerManifest.PackageIdentifier (ManifestSet.Installer ms) = Config.PackageID cfg
    /\ InstallerManifest.PackageVersion (ManifestSet.Installer ms) = version
    /\ InstallerManifest.Installers (ManifestSet.Installer ms) = installers
    /\ LocaleManifest.PackageIdentifier (ManifestSet.Locale ms) = Config.PackageID cfg
    /\ LocaleManifest.PackageVersion (ManifestSet.Locale ms) = version
    /\ ManifestSet.Path ms
       = "manifests/" +:+ GoStrings.ToLower1 c +:+ "/" +:+ Config.PackageID cfg
         +:+ "/" +:+ version.
Proof.
  intros H. apply cut_split in H.
  unfold GenerateManifests, GoStrings.SplitN2. rewrite H. simpl.
  eexists. repeat split.
Qed.

(** [GenerateManifests] returns an error exactly for an identifier without
    a separator, and the error names the identifier. *)
Lemma GenerateManifests_error_iff (cfg : Config.t) (version : string)
    (installers : list Installer.t) (e : error) :
  GenerateManifests cfg version installers = Ret (Err e)
  <-> no_sep "." (Config.PackageID cfg)
      /\ e = "invalid package ID format: " +:+ Config.PackageID cfg.
Proof.
  split.
  - unfold GenerateManifests, GoStrings.SplitN2.
    destruct (GoStrings.cut "." (Config.PackageID cfg)) as [[a b]|] eqn:E.
    + destruct a; simpl; discriminate.
    + intros [= <-]. split; [now apply cut_None | reflexivity].
  - intros [H ->]. now apply GenerateManifests_no_separator.
Qed.

(** The sibling check [isValidPackageID] does ask for two non-empty segments. *)
Lemma isValidPackageID_iff (id : string) :
  isValidPackageID id = true
  <-> exists ns name, split_at_first_dot id ns name /\ ns <> "" /\ name <> "".
Proof.
  unfold isValidPackageID, GoStrings.SplitN2. split.
  - destruct (String.eqb_spec id ""); [discriminate |].
    destruct (GoStrings.cut "." id) as [[a b]|] eqn:E; [| discriminate].
    intros H. apply andb_prop in H as [Ha Hb].
    exists a, b. split; [now apply cut_split |].
    split.
    + destruct (String.eqb_spec a ""); [discriminate | assumption].
    + destruct (String.eqb_spec b ""); [discriminate | assumption].
  - intros (ns & name & Hs & Hns & Hname).
    pose proof Hs as [Hid _]. apply cut_split in Hs. rewrite Hs.
    destruct (String.eqb_spec id "") as [->|_].
    + destruct ns; discriminate.
    + destruct (String.eqb_spec ns ""); [contradiction |].
      destruct (String.eqb_spec name ""); [contradiction | reflexivity].
Qed.

(** An identifier with two non-empty segments is never refused. *)
Lemma GenerateManifests_valid (cfg : Config.t) (version : string)
    (installers : list Installer.t) :
  isValidPackageID (Config.PackageID cfg) = true ->
  exists ms, GenerateManifests cfg version installers = Ret (Ok ms).
Proof.
  unfold isValidPackageID, GoStrings.SplitN2.
  destruct (String.eqb (Config.PackageID cfg) ""); [discriminate |].
  destruct (GoStrings.cut "." (Config.PackageID cfg)) as [[ns name]|] eqn:E; [| discriminate].
  destruct ns as [|c ns]; [discriminate |]. intros _.
  apply cut_split in E.
  destruct (GenerateManifests_split cfg version installers c ns name E) as (ms & Hms & _).
  now exists ms.
Qed.

(** C1 (code at the failing inputs).  An identifier whose first segment is
    empty is not refused with an error: [publisher[:1]] panics.  One whose
    second segment is empty is not refused either: a manifest set comes
    out.  [isValidPackageID] rejects both, and an identifier without a
    separator does get the invalid-identifier error. *)
Theorem GenerateManifests_empty_segment_not_refused :
  isValidPackageID ".Package" = false
  /\ GenerateManifests (sample_config ".Package" false) "1.0.0" []
     = Panic "runtime error: slice bounds out of range [:1] with length 0"
  /\ isValidPackageID "Publisher." = false
  /\ (exists ms,
        GenerateManifests (sample_config "Publisher." false) "1.0.0" [] = Ret (Ok ms)
        /\ ManifestSet.Path ms = "manifests/p/Publisher./1.0.0")
  /\ GenerateManifests (sample_config "InvalidPackageID" false) "1.0.0" []
     = Ret (Err "invalid package ID format: InvalidPackageID").
Proof.
  split; [reflexivity |]. split; [reflexivity |]. split; [reflexivity |].
  split; [| reflexivity].
  eexists. split; reflexivity.
Qed.

(** C4. When [GenerateManifests] succeeds, the version, installer and
    locale documents all carry the configured package identifier and the
    given release version. *)
Theorem GenerateManifests_documents_agree (cfg : Config.t) (version : string)
    (installers : list Installer.t) (ms : ManifestSet.t) :
  GenerateManifests cfg version installers = Ret (Ok ms) ->
  VersionManifest.PackageIdentifier (ManifestSet.Version ms) = Config.PackageID cfg
  /\ InstallerManifest.PackageIdentifier (ManifestSet.Installer ms) = Config.PackageID cfg
  /\ LocaleManifest.PackageIdentifier (ManifestSet.Locale ms) = Config.PackageID cfg
  /\ VersionManifest.PackageVersion (ManifestSet.Version ms) = version
  /\ InstallerManifest.PackageVersion (ManifestSet.Installer ms) = version
  /\ LocaleManifest.PackageVersion (ManifestSet.Locale ms) = version.
Proof.
  unfold GenerateManifests.
  destruct (GoStrings.SplitN2 (Config.PackageID cfg) ".") as [|publisher [|name [|? ?]]];
    try discriminate.
  destruct (slice_to_1 publisher); try discriminate.
  intros [= <-]. repeat split.
Qed.

(** The three keys of [GetFiles] differ: their suffixes have different
    lengths. *)
Lemma file_keys_distinct (path id : string) :
  let k1 := path +:+ "/" +:+ id +:+ ".yaml" in
  let k2 := path +:+ "/" +:+ id +:+ ".installer.yaml" in
  let k3 := path +:+ "/" +:+ id +:+ ".locale.en-US.yaml" in
  k1 <> k2 /\ k1 <> k3 /\ k2 <> k3.
Proof.
  cbv zeta.
  repeat split; intros H;
    do 3 apply append_inv_head in H; discriminate.
Qed.

Lemma addYAMLHeader_prefix (content : string) :
  GoStrings.HasPrefix (addYAMLHeader content) yamlHeader = true.
Proof. apply prefix_append. Qed.

(** [GetFiles] on a set whose three documents carry one identifier [id]:
    three entries, at the three paths, each the header followed by the
    serialised document. *)
Lemma GetFiles_entries (m : ManifestSet.t) (id y1 y2 y3 : string) :
  VersionManifest.PackageIdentifier (ManifestSet.Version m) = id ->
  InstallerManifest.PackageIdentifier (ManifestSet.Installer m) = id ->
  LocaleManifest.PackageIdentifier (ManifestSet.Locale m) = id ->
  yaml_Marshal (DocVersion (ManifestSet.Version m)) = Ok y1 ->
  yaml_Marshal (DocInstaller (ManifestSet.Installer m)) = Ok y2 ->
  yaml_Marshal (DocLocale (ManifestSet.Locale m)) = Ok y3 ->
  exists files : gmap string string,
    GetFiles m = Ok files
    /\ size files = 3
    /\ files !! (ManifestSet.Path m +:+ "/" +:+ id +:+ ".yaml") = Some (addYAMLHeader y1)
    /\ files !! (ManifestSet.Path m +:+ "/" +:+ id +:+ ".installer.yaml")
       = Some (addYAMLHeader y2)
    /\ files !! (ManifestSet.Path m +:+ "/" +:+ id +:+ ".locale.en-US.yaml")
       = Some (addYAMLHeader y3)
    /\ (forall (k content : string),
          files !! k = Some content ->
          GoStrings.HasPrefix content yamlHeader = true).
Proof.
  intros Hv Hi Hl H1 H2 H3.
  unfold GetFiles, VersionYAML, InstallerYAML, LocaleYAML, toYAML.
  rewrite H1, H2, H3, Hv, Hi, Hl.
  destruct (file_keys_distinct (ManifestSet.Path m) id) as (N12 & N13 & N23).
  cbv zeta in N12, N13, N23.
  eexists. split; [reflexivity |].
  split.
  { rewrite !map_size_insert_None, map_size_empty; [reflexivity | ..].
    - apply lookup_empty.
    - rewrite lookup_insert_ne by exact N12. apply lookup_empty.
    - rewrite lookup_insert_ne by (intros E; now apply N23).
      rewrite lookup_insert_ne by (intros E; now apply N13).
      apply lookup_empty. }
  split.
  { rewrite lookup_insert_ne by (intros E; now apply N13).
    rewrite lookup_insert_ne by (intros E; now apply N12).
    apply lookup_insert_eq. }
  split.
  { rewrite lookup_insert_ne by (intros E; now apply N23).
    apply lookup_insert_eq. }
  split.
  { apply lookup_insert_eq. }
  intros k content Hk.
  rewrite lookup_insert in Hk. case_decide; [injection Hk as <-; apply addYAMLHeader_prefix |].
  rewrite lookup_insert in Hk. case_decide; [injection Hk as <-; apply addYAMLHeader_prefix |].
  rewrite lookup_insert in Hk. case_decide; [injection Hk as <-; apply addYAMLHeader_prefix |].
  rewrite lookup_empty in Hk. discriminate.
Qed.

(** The files of a generated set, for an identifier [String c ns ++ "." ++
    name]: the prefix is [manifests/L/<identifier>/<version>] with [L] what
    [strings.ToLower] makes of the first byte of the namespace. *)
Lemma GetFiles_of_generated (cfg : Config.t) (version : string)
    (installers : list Installer.t) (c : ascii) (ns name : string)
    (ms : ManifestSet.t) (y1 y2 y3 : string) :
  split_at_first_dot (Config.PackageID cfg) (String c ns) name ->
  GenerateManifests cfg version installers = Ret (Ok ms) ->
  yaml_Marshal (DocVersion (ManifestSet.Version ms)) = Ok y1 ->
  yaml_Marshal (DocInstaller (ManifestSet.Installer ms)) = Ok y2 ->
  yaml_Marshal (DocLocale (ManifestSet.Locale ms)) = Ok y3 ->
  let id := Config.PackageID cfg in
  let prefix := "manifests/" +:+ GoStrings.ToLower1 c +:+ "/" +:+ id +:+ "/" +:+ version in
  exists files : gmap string string,
    GetFiles ms = Ok files
    /\ size files = 3
    /\ files !! (prefix +:+ "/" +:+ id +:+ ".yaml") = Some (addYAMLHeader y1)
    /\ files !! (prefix +:+ "/" +:+ id +:+ ".installer.yaml") = Some (addYAMLHeader y2)
    /\ files !! (prefix +:+ "/" +:+ id +:+ ".locale.en-US.yaml") = Some (addYAMLHeader y3)
    /\ (forall (k content : string),
          files !! k = Some content ->
          GoStrings.HasPrefix content yamlHeader = true).
Proof.
  intros Hs Hg H1 H2 H3 id prefix.
  destruct (GenerateManifests_split cfg version installers c ns name Hs)
    as (ms' & Hg' & Iv & _ & Ii & _ & _ & Il & _ & Hp).
  rewrite Hg in Hg'. injection Hg' as <-.
  destruct (GetFiles_entries ms id y1 y2 y3 Iv Ii Il H1 H2 H3) as (files & HF).
  exists files. subst prefix id. rewrite <- Hp. exact HF.
Qed.

(** For a namespace that starts with an ASCII letter, [L] is that letter in
    lower case. *)
Lemma ToLower1_ascii (c : ascii) :
  GoStrings.byte_lt c 128 = true ->
  GoStrings.ToLower1 c = String (GoStrings.lower_byte c) "".
Proof. unfold GoStrings.ToLower1. now intros ->. Qed.

(** ** plugin.go: [Validate] *)

Lemma fieldErrors_AddError (field target message : string) (vb : list ValidationError.t) :
  List.filter (fun e => String.eqb (ValidationError.Field e) target) (AddError vb field message)
  = List.filter (fun e => String.eqb (ValidationError.Field e) target) vb
    ++ (if String.eqb field target then [ValidationError.mk field message] else []).
Proof. unfold AddError. rewrite List.filter_app. reflexivity. Qed.

Lemma installers_field_other (x : string) :
  String.eqb ("installers[" +:+ x) "metadata.short_description" = false.
Proof. reflexivity. Qed.

(** The loop over the installers adds no error on the short description. *)
Lemma validateInstallers_short_description (installers : list InstallerConfig.t)
    (vb : list ValidationError.t) (i : Z) :
  List.filter (fun e => String.eqb (ValidationError.Field e) "metadata.short_description")
    (validateInstallers vb i installers)
  = List.filter (fun e => String.eqb (ValidationError.Field e) "metadata.short_description") vb.
Proof.
  revert vb i. induction installers as [|installer rest IH]; intros vb i; [reflexivity |].
  cbn [validateInstallers]. rewrite IH.
  destruct (negb (isValidArchitecture (InstallerConfig.Architecture installer)));
    destruct (String.eqb (InstallerConfig.URL installer) "");
    rewrite ?fieldErrors_AddError, ?installers_field_other, ?app_nil_r; reflexivity.
Qed.

(** The rule [Validate] applies to the short description, with lengths as
    Go's [len] gives them, in bytes: an error on
    ["metadata.short_description"] exactly when the configured short
    description is empty (the error says it is required) or longer than 256
    bytes (the error says it exceeds the limit); for 1 to 256 bytes there is
    none. *)
Theorem Validate_short_description (config : gmap string any) :
  let sd := MetadataConfig.ShortDescription (Config.Metadata (parseConfig config)) in
  exists resp,
    Validate config = Ok resp
    /\ fieldErrors "metadata.short_description" resp
       = (if String.eqb sd "" then
            [ValidationError.mk "metadata.short_description" "Short description is required"]
          else if (256 <? String.length sd)%nat then
            [ValidationError.mk "metadata.short_description"
               "Short description must be <= 256 characters"]
          else [])
    /\ (sd = "" \/ 256 < String.length sd
        <-> fieldErrors "metadata.short_description" resp <> [])
    /\ (1 <= String.length sd <= 256
        -> fieldErrors "metadata.short_description" resp = []).
Proof.
  intros sd. eexists. split; [reflexivity |].
  assert (E : fieldErrors "metadata.short_description" (validateConfig (parseConfig config))
              = (if String.eqb sd "" then
                   [ValidationError.mk "metadata.short_description"
                      "Short description is required"]
                 else if (256 <? String.length sd)%nat then
                   [ValidationError.mk "metadata.short_description"
                      "Short description must be <= 256 characters"]
                 else [])).
  { subst sd. unfold fieldErrors, validateConfig, Build. cbn [ValidateResponse.Errors].
    generalize (parseConfig config) as cfg. intros cfg.
    destruct (String.eqb (MetadataConfig.License (Config.Metadata cfg)) "");
      destruct (String.eqb (MetadataConfig.ShortDescription (Config.Metadata cfg)) "");
      destruct (256 <? String.length (MetadataConfig.ShortDescription (Config.Metadata cfg)))%nat;
      destruct (String.eqb (MetadataConfig.Name (Config.Metadata cfg)) "");
      destruct (String.eqb (MetadataConfig.Publisher (Config.Metadata cfg)) "");
      rewrite ?fieldErrors_AddError, ?validateInstallers_short_description;
      cbn [String.eqb Ascii.eqb Bool.eqb app];
      rewrite ?app_nil_r;
      destruct (length (Config.Installers cfg) =? 0)%nat;
      destruct (String.eqb (Config.GitHubToken cfg) "");
      destruct (negb (isValidPackageID (Config.PackageID cfg)));
      rewrite ?fieldErrors_AddError; reflexivity. }
  split; [exact E |].
  rewrite E. clear E. clearbody sd. split.
  - destruct (String.eqb_spec sd "") as [->|Hne].
    + split; [discriminate | now left].
    + destruct (Nat.ltb_spec 256 (String.length sd)).
      * split; [discriminate | now right].
      * split; [intros [?|?]; [contradiction | lia] | intros H'; now destruct H'].
  - intros [H1 H256].
    destruct (String.eqb_spec sd "") as [Heq|_].
    + rewrite Heq in H1. simpl in H1. lia.
    + destruct (Nat.ltb_spec 256 (String.length sd)); [lia | reflexivity].
Qed.

(** C10. A short description of 129 characters, far below the limit of 256
    characters that the claim and the error message of the code state, is
    turned down: its characters take two bytes each, [len] counts 258, and
    [Validate] reports "Short description must be <= 256 characters" on
    ["metadata.short_description"].  The limit the code applies is one of
    bytes ([Validate_short_description]); in characters it holds for text
    of one byte per character only. *)
Theorem Validate_short_description_counts_bytes :
  characters description_129 = 129
  /\ String.length description_129 = 258
  /\ MetadataConfig.ShortDescription (Config.Metadata (parseConfig config_description_129))
     = description_129
  /\ exists resp,
       Validate config_description_129 = Ok resp
       /\ fieldErrors "metadata.short_description" resp
          = [ValidationError.mk "metadata.short_description"
               "Short description must be <= 256 characters"].
Proof.
  split; [vm_compute; reflexivity |].
  split; [vm_compute; reflexivity |].
  assert (Hsd : MetadataConfig.ShortDescription
                  (Config.Metadata (parseConfig config_description_129))
                = description_129) by reflexivity.
  split; [exact Hsd |].
  destruct (Validate_short_description config_description_129) as (resp & Hv & He & _).
  exists resp. split; [exact Hv |].
  rewrite He, Hsd. vm_compute. reflexivity.
Qed.

(** ** plugin.go: [Execute] and the dry run *)

(** C9. For a request whose hook is not the post-publish hook, [Execute]
    returns a response with [Success] true and the message "Hook <hook> not
    handled by winget plugin", with a nil error; the world and the trace are
    as before: nothing is hashed, logged or sent. *)
Theorem Execute_other_hook (req : ExecuteRequest.t) (st : State) :
  ExecuteRequest.Hook req <> HookPostPublish ->
  Execute req st
  = (Ret (Ok (ExecuteResponse.mk true
                ("Hook " +:+ ExecuteRequest.Hook req +:+ " not handled by winget plugin"))), st).
Proof.
  intros H. unfold Execute.
  destruct (String.eqb_spec (ExecuteRequest.Hook req) HookPostPublish); [contradiction | reflexivity].
Qed.

(** In a dry run the loop over the installers only logs: every installer
    gets the placeholder digest, nothing is downloaded. *)
Lemma installersLoop_dry_run (version : string) (logger : Logger)
    (todo : list InstallerConfig.t) :
  forall (i : Z) (installers : list Installer.t) (st : State),
  exists (built : list Installer.t) (evs : list Event),
    installersLoop true version logger i todo installers st
    = (Ret (inr (installers ++ built)), mkState (world st) (trace st ++ evs))
    /\ Forall (fun e => is_network e = false) evs
    /\ Forall2 (dry_run_installer_of version) todo built.
Proof.
  induction todo as [|installerCfg rest IH]; intros i installers st.
  - exists [], []. rewrite !app_nil_r. destruct st. repeat split; constructor.
  - cbn [installersLoop]. unfold bind at 1. unfold Info at 1, emit. cbn [world trace].
    unfold bind at 1. unfold bind at 1. unfold Info at 1, emit, ret at 1. cbn [world trace].
    match goal with
    | |- context [installersLoop true version logger ?i' rest ?ins ?st'] =>
        destruct (IH i' ins st') as (built & evs & E & Hnet & Hall)
    end.
    rewrite E. cbn [world trace].
    eexists (_ :: built), (_ :: _ :: evs).
    rewrite <- ?app_assoc. cbn [app].
    split; [reflexivity |].
    split; [repeat constructor; exact Hnet |].
    constructor; [repeat split | exact Hall].
Qed.

Lemma dryRunHash_zeros : dryRunHash = repeat_byte "0" 64.
Proof. reflexivity. Qed.

(** A trace made of one log line, the events [H] speaks of, and more log
    lines holds no network event. *)
Ltac only_logs H :=
  constructor; [reflexivity |];
  apply Forall_app; split; [exact H | repeat constructor].

(** The same loop as an equation: the installers added are the dry-run
    records of the configured ones, in order, and the trace grows by the two
    log lines of each. *)
Lemma installersLoop_dry_run_eq (version : string) (logger : Logger)
    (todo : list InstallerConfig.t) :
  forall (i : Z) (installers : list Installer.t) (st : State),
    installersLoop true version logger i todo installers st
    = (Ret (inr (installers ++ map (dry_run_installer version) todo)),
       mkState (world st) (trace st ++ dry_run_hash_log logger version i todo)).
Proof.
  induction todo as [|installerCfg rest IH]; intros i installers st.
  - cbn. rewrite !app_nil_r. destruct st. reflexivity.
  - cbn [installersLoop]. unfold bind at 1. unfold Info at 1, emit. cbn [world trace].
    unfold bind at 1. unfold bind at 1. unfold Info at 1, emit, ret at 1. cbn [world trace].
    rewrite IH. cbn [world trace map dry_run_hash_log].
    rewrite <- !app_assoc. cbn [app].
    destruct (Nat.ltb_spec 0 (size (InstallerConfig.Switches installerCfg))) as [|Hs].
    + reflexivity.
    + assert (Hz : size (InstallerConfig.Switches installerCfg) = 0%nat) by lia.
      apply map_size_empty_iff in Hz.
      unfold dry_run_installer. rewrite Hz. reflexivity.
Qed.

Lemma dry_run_hash_log_no_network (logger : Logger) (version : string)
    (todo : list InstallerConfig.t) (i : Z) :
  Forall (fun e => is_network e = false) (dry_run_hash_log logger version i todo).
Proof.
  revert i. induction todo as [|installerCfg rest IH]; intros i; cbn; [constructor |].
  repeat (constructor; [reflexivity |]). apply IH.
Qed.

Lemma dry_run_installers (version : string) (todo : list InstallerConfig.t) :
  Forall2 (dry_run_installer_of version) todo (map (dry_run_installer version) todo)
  /\ Forall (fun installer => Installer.InstallerSha256 installer = repeat_byte "0" 64)
       (map (dry_run_installer version) todo).
Proof.
  induction todo as [|installerCfg rest [IH1 IH2]]; cbn [map]; split; constructor;
    try assumption; [repeat split | reflexivity].
Qed.

(** The installers a successful [GenerateManifests] serialises are the
    ones it was given. *)
Lemma GenerateManifests_installers (cfg : Config.t) (version : string)
    (installers : list Installer.t) (ms : ManifestSet.t) :
  GenerateManifests cfg version installers = Ret (Ok ms) ->
  InstallerManifest.Installers (ManifestSet.Installer ms) = installers.
Proof.
  unfold GenerateManifests.
  destruct (GoStrings.SplitN2 (Config.PackageID cfg) ".") as [|p [|n [|? ?]]];
    try discriminate.
  destruct (slice_to_1 p); try discriminate.
  now intros [= <-].
Qed.

(** C2. With the dry-run flag set, [executePostPublish] sends nothing (no
    GitHub request of any kind, no download) and leaves the world as it
    was.  The installers of the run are the dry-run records of the
    configured installers, each with the placeholder digest of 64 zeros:
    the run logs, and returns, what [GenerateManifests] makes of exactly
    these installers, so that the installer manifest it logs is the
    serialisation of a document that holds them.  Whenever manifest
    generation succeeds, the result is a success whose message is
    "[DRY-RUN] Would create PR for <package id> version <version>". *)
Theorem executePostPublish_dry_run (releaseCtx : ReleaseContext.t) (cfg : Config.t)
    (logger : Logger) (st : State) :
  Config.DryRun cfg = true ->
  exists (installers : list Installer.t) (evs : list Event) (out : Outcome (Result ExecuteResponse.t)),
    executePostPublish releaseCtx cfg logger st
    = (out, mkState (world st) (trace st ++ evs))
    /\ Forall (fun e => is_network e = false) evs
    /\ Forall2 (dry_run_installer_of (ReleaseContext.Version releaseCtx))
         (Config.Installers cfg) installers
    /\ dryRunHash = repeat_byte "0" 64
    /\ installers
       = map (dry_run_installer (ReleaseContext.Version releaseCtx)) (Config.Installers cfg)
    /\ Forall (fun installer => Installer.InstallerSha256 installer = repeat_byte "0" 64)
         installers
    /\ evs = dry_run_log logger (ReleaseContext.Version releaseCtx) cfg installers
    /\ out = dry_run_outcome (ReleaseContext.Version releaseCtx) cfg installers
    /\ (forall ms : ManifestSet.t,
          GenerateManifests cfg (ReleaseContext.Version releaseCtx) installers = Ret (Ok ms) ->
          InstallerManifest.Installers (ManifestSet.Installer ms) = installers
          /\ In (logged (With logger [("version", ReleaseContext.Version releaseCtx);
                                      ("package_id", Config.PackageID cfg)])
                   "[DRY-RUN] Installer manifest"
                   [("content", ignore_err (InstallerYAML ms))]) evs
          /\ out = Ret (Ok (ExecuteResponse.mk true
                              ("[DRY-RUN] Would create PR for " +:+ Config.PackageID cfg
                               +:+ " version " +:+ ReleaseContext.Version releaseCtx)))).
Proof.
  intros Hdry.
  set (version := ReleaseContext.Version releaseCtx).
  set (installers := map (dry_run_installer version) (Config.Installers cfg)).
  assert (E : executePostPublish releaseCtx cfg logger st
              = (dry_run_outcome version cfg installers,
                 mkState (world st)
                   (trace st ++ dry_run_log logger version cfg installers))).
  { unfold executePostPublish, dry_run_log, dry_run_outcome. rewrite Hdry.
    fold version.
    unfold bind at 1. unfold Info at 1, emit. cbn [world trace].
    unfold bind at 1. rewrite installersLoop_dry_run_eq. cbn [app world trace].
    fold installers.
    unfold bind at 1. unfold Info at 1, emit. cbn [world trace].
    unfold bind at 1. unfold lift at 1.
    destruct (GenerateManifests cfg version installers) as [[ms|err]|msg|] eqn:G.
    - unfold bind, Info, emit, ret, logged. cbn [world trace].
      subst installers. rewrite length_map.
      rewrite <- ?app_assoc. cbn [app]. rewrite <- ?app_assoc. reflexivity.
    - unfold ret, logged. rewrite <- ?app_assoc. cbn [app]. rewrite <- ?app_assoc.
      reflexivity.
    - unfold logged. rewrite <- ?app_assoc. cbn [app]. rewrite <- ?app_assoc.
      reflexivity.
    - unfold logged. rewrite <- ?app_assoc. cbn [app]. rewrite <- ?app_assoc.
      reflexivity. }
  destruct (dry_run_installers version (Config.Installers cfg)) as [Hall Hzero].
  exists installers, (dry_run_log logger version cfg installers),
    (dry_run_outcome version cfg installers).
  split; [exact E |].
  split.
  { unfold dry_run_log. constructor; [reflexivity |].
    apply Forall_app. split; [apply dry_run_hash_log_no_network |].
    constructor; [reflexivity |].
    destruct (GenerateManifests cfg version installers) as [[ms|err]|msg|];
      repeat constructor. }
  split; [exact Hall |].
  split; [reflexivity |].
  split; [reflexivity |].
  split; [exact Hzero |].
  split; [reflexivity |].
  split; [reflexivity |].
  intros ms Hms.
  split; [exact (GenerateManifests_installers _ _ _ _ Hms) |].
  unfold dry_run_log, dry_run_outcome. rewrite Hms.
  split; [| reflexivity].
  right. apply in_or_app. right. right. right. right. left. reflexivity.
Qed.

(** ** hash.go: the installer download *)

Lemma installerCheckRedirect_allows (next : http.Request) (via : list http.Request) :
  length via < 10 -> installerCheckRedirect next via = None.
Proof.
  intros H. unfold installerCheckRedirect.
  destruct (Nat.leb_spec 10 (length via)); [lia | reflexivity].
Qed.

Lemma installerCheckRedirect_stops (next : http.Request) (via : list http.Request) :
  10 <= length via -> installerCheckRedirect next via = Some "too many redirects".
Proof.
  intros H. unfold installerCheckRedirect.
  destruct (Nat.leb_spec 10 (length via)); [reflexivity | lia].
Qed.

(** Under the installer policy the loop makes at most ten requests: from
    [reqs] requests already made, [10 - length reqs] units of fuel (and at
    least one) are never exhausted, and more fuel changes nothing. *)
Lemma installer_client_fuel (fuel : nat) :
  forall (reqs : list http.Request) (req : http.Request) (st : State),
    1 <= fuel -> 10 <= fuel + length reqs ->
    client_Do installerCheckRedirect (S fuel) reqs req st
    = client_Do installerCheckRedirect fuel reqs req st
    /\ exists r st', client_Do installerCheckRedirect fuel reqs req st = (Ret r, st').
Proof.
  induction fuel as [|fuel IH]; intros reqs req st H1 H10; [lia |].
  cbn [client_Do]. unfold bind, ask.
  destruct (transport req (world st)) as [[loc|resp|err] w']; cbn [world trace fst].
  - destruct (Nat.leb_spec 10 (length (reqs ++ [req]))) as [Hstop|Hgo].
    + rewrite !installerCheckRedirect_stops by exact Hstop.
      split; [reflexivity | eexists; eexists; reflexivity].
    + rewrite !installerCheckRedirect_allows by exact Hgo.
      rewrite length_app in Hgo. cbn [length] in Hgo.
      apply IH; [lia | rewrite length_app; cbn [length]; lia].
  - split; [reflexivity | eexists; eexists; reflexivity].
  - split; [reflexivity | eexists; eexists; reflexivity].
Qed.

(** [CalculateInstallerHash] always returns: it neither panics nor runs out
    of fuel. *)
Lemma CalculateInstallerHash_returns (url : string) (st : State) :
  exists r st', CalculateInstallerHash url st = (Ret r, st').
Proof.
  unfold CalculateInstallerHash.
  destruct (NewRequestWithContext "GET" url None) as [req|err];
    [| eexists; eexists; reflexivity].
  unfold bind.
  match goal with
  | |- context [client_Do installerCheckRedirect installerClientFuel [] ?rq st] =>
      destruct (installer_client_fuel installerClientFuel [] rq st) as (_ & r & st' & E);
        [unfold installerClientFuel; lia | unfold installerClientFuel; cbn [length]; lia |]
  end.
  rewrite E. destruct r as [resp|err]; [| eexists; eexists; reflexivity].
  destruct (negb (http.StatusCode resp =? http.StatusOK)%Z);
    [eexists; eexists; reflexivity |].
  destruct (io_ReadAll (http.RespBody resp)); eexists; eexists; reflexivity.
Qed.

(** A resource behind a chain of redirects the policy lets through. *)
Lemma client_Do_reaches (w w1 w2 : World) (req req' : http.Request)
    (hops : list http.Request) (resp : http.Response) :
  follows w req hops w1 req' ->
  transport req' w1 = (http.Respond resp, w2) ->
  forall (reqs : list http.Request) (tr : list Event) (fuel : nat),
    length reqs + length hops < 10 ->
    length hops < fuel ->
    client_Do installerCheckRedirect fuel reqs req (mkState w tr)
    = (Ret (Ok resp), mkState w2 (tr ++ map EvDownload (hops ++ [req']))).
Proof.
  intros Hf Hresp. induction Hf as [w req|w w1 w' req req' loc hops Ht Hf IH];
    intros reqs tr fuel Hlen Hfuel.
  - destruct fuel as [|fuel]; [cbn [length] in Hfuel; lia |].
    cbn [client_Do]. unfold bind, ask. cbn [world trace].
    rewrite Hresp. reflexivity.
  - destruct fuel as [|fuel]; [cbn [length] in Hfuel; lia |].
    cbn [length] in Hlen, Hfuel.
    cbn [client_Do]. unfold bind at 1. unfold ask. cbn [world trace].
    rewrite Ht.
    rewrite installerCheckRedirect_allows by (rewrite length_app; cbn [length]; lia).
    rewrite (IH Hresp) by (rewrite ?length_app; cbn [length]; lia).
    rewrite <- app_assoc. reflexivity.
Qed.

(** A chain that asks for one redirect more than the policy allows. *)
Lemma client_Do_redirect_limit (w w' : World) (req req' : http.Request)
    (hops : list http.Request) :
  follows w req hops w' req' ->
  forall (reqs : list http.Request) (tr : list Event) (fuel : nat),
    hops <> [] ->
    length reqs + length hops = 10 ->
    length hops <= fuel ->
    client_Do installerCheckRedirect fuel reqs req (mkState w tr)
    = (Ret (Err (url_Error (urlErrorOp (http.Method req)) (http.URL req')
                   "too many redirects")),
       mkState w' (tr ++ map EvDownload hops)).
Proof.
  intros Hf. induction Hf as [w req|w w1 w' req req' loc hops Ht Hf IH];
    intros reqs tr fuel Hne Hlen Hfuel; [contradiction |].
  destruct fuel as [|fuel]; [cbn [length] in Hfuel; lia |].
  cbn [length] in Hlen, Hfuel.
  cbn [client_Do]. unfold bind at 1. unfold ask. cbn [world trace].
  rewrite Ht.
  destruct hops as [|h hops].
  - inversion Hf; subst.
    rewrite installerCheckRedirect_stops by (rewrite length_app; cbn [length] in *; lia).
    reflexivity.
  - rewrite installerCheckRedirect_allows by (rewrite length_app; cbn [length] in *; lia).
    rewrite IH; [| discriminate | rewrite length_app; cbn [length] in *; lia | lia].
    rewrite <- app_assoc. reflexivity.
Qed.

(** [CalculateInstallerHash] once the URL has parsed: the download, then
    the status check, then the digest. *)
Lemma CalculateInstallerHash_after_Do (url : string) (st st' : State)
    (r : Result http.Response) :
  url_Parse_error url = None ->
  client_Do installerCheckRedirect installerClientFuel [] (installerRequest url) st
  = (Ret r, st') ->
  CalculateInstallerHash url st
  = (Ret match r with
         | Err err => Err ("failed to download installer: " +:+ err)
         | Ok resp =>
             if negb (http.StatusCode resp =? http.StatusOK)%Z
             then Err ("download failed with status "
                       +:+ GoStrings.fmt_d (http.StatusCode resp))
             else match io_ReadAll (http.RespBody resp) with
                  | Err err => Err ("failed to calculate hash: " +:+ err)
                  | Ok content => Ok (CalculateHashFromBytes content)
                  end
         end, st').
Proof.
  intros Hurl Hdo. unfold CalculateInstallerHash, NewRequestWithContext.
  rewrite Hurl. fold (installerRequest url).
  unfold bind. rewrite Hdo.
  destruct r as [resp|err]; [| reflexivity].
  destruct (negb (http.StatusCode resp =? http.StatusOK)%Z); [reflexivity |].
  destruct (io_ReadAll (http.RespBody resp)); reflexivity.
Qed.

(** C7, as amended.  Once the installer client hands back a final response,
    [CalculateInstallerHash] fails with the status error, which carries the
    observed status code, exactly when the status is not 200; with status
    200 the call goes on to read and hash the body. *)
Theorem CalculateInstallerHash_status (url : string) (st st' : State)
    (resp : http.Response) :
  url_Parse_error url = None ->
  client_Do installerCheckRedirect installerClientFuel [] (installerRequest url) st
  = (Ret (Ok resp), st') ->
  let status_error :=
    "download failed with status " +:+ GoStrings.fmt_d (http.StatusCode resp) in
  (http.StatusCode resp <> 200%Z ->
   CalculateInstallerHash url st = (Ret (Err status_error), st'))
  /\ (http.StatusCode resp = 200%Z ->
      CalculateInstallerHash url st
      = (Ret match io_ReadAll (http.RespBody resp) with
             | Err err => Err ("failed to calculate hash: " +:+ err)
             | Ok content => Ok (CalculateHashFromBytes content)
             end, st'))
  /\ (CalculateInstallerHash url st = (Ret (Err status_error), st')
      <-> http.StatusCode resp <> 200%Z).
Proof.
  intros Hurl Hdo status_error.
  rewrite (CalculateInstallerHash_after_Do url st st' (Ok resp) Hurl Hdo).
  unfold http.StatusOK.
  destruct (Z.eqb_spec (http.StatusCode resp) 200) as [E|N]; cbn [negb].
  - split; [contradiction |]. split; [reflexivity |].
    split; [| contradiction].
    destruct (io_ReadAll (http.RespBody resp)); intros [= H]; discriminate H.
  - split; [reflexivity |]. split; [contradiction |].
    split; [intros _; exact N | reflexivity].
Qed.

(** C8, as amended.  [CalculateInstallerHash] follows up to nine redirects:
    a resource served with status 200 behind at most nine redirects hashes
    to the digest of its bytes; a chain that asks for a tenth redirect ends
    the call with the "too many redirects" error after ten requests, none
    of them repeated. *)
Theorem CalculateInstallerHash_redirects (url : string) (st : State)
    (hops : list http.Request) (w1 : World) (req' : http.Request) :
  url_Parse_error url = None ->
  follows (world st) (installerRequest url) hops w1 req' ->
  (length hops <= 9 ->
   forall (resp : http.Response) (w2 : World) (content : list byte),
     transport req' w1 = (http.Respond resp, w2) ->
     http.StatusCode resp = 200%Z ->
     http.RespBody resp = http.mkBody content None ->
     CalculateInstallerHash url st
     = (Ret (Ok (CalculateHashFromBytes content)),
        mkState w2 (trace st ++ map EvDownload (hops ++ [req']))))
  /\ (length hops = 10 ->
      CalculateInstallerHash url st
      = (Ret (Err ("failed to download installer: "
                   +:+ url_Error "Get" (http.URL req') "too many redirects")),
         mkState w1 (trace st ++ map EvDownload hops))).
Proof.
  intros Hurl Hf. destruct st as [w tr]. cbn [world trace] in *. split.
  - intros Hlen resp w2 content Hresp Hstatus Hbody.
    erewrite CalculateInstallerHash_after_Do; [| exact Hurl |].
    2: { apply (client_Do_reaches _ _ _ _ _ _ _ Hf Hresp);
         unfold installerClientFuel; cbn [length]; lia. }
    cbv beta iota. rewrite Hstatus, Hbody. reflexivity.
  - intros Hlen.
    erewrite CalculateInstallerHash_after_Do; [| exact Hurl |].
    2: { apply (client_Do_redirect_limit _ _ _ _ _ Hf);
         [ intros ->; discriminate Hlen
         | cbn [length]; lia
         | unfold installerClientFuel; lia ]. }
    reflexivity.
Qed.

(** ** github.go: [EnsureFork] *)

Lemma bind_Ret {A B : Type} (m : M A) (k : A -> M B) (s s' : State) (a : A) :
  m s = (Ret a, s') -> bind m k s = k a s'.
Proof. intros H. unfold bind. now rewrite H. Qed.

(** The two calls never panic: they return what the transport gave. *)
Lemma doRequestRaw_returns (g : GitHubClient) (req : http.Request) (st : State) :
  exists r st', doRequestRaw g req st = (Ret r, st').
Proof.
  unfold doRequestRaw, ask.
  match goal with
  | |- context [defaultClientDo ?rq (world st)] =>
      destruct (defaultClientDo rq (world st)) as [r w']
  end.
  eexists; eexists; reflexivity.
Qed.

(** [forkExists]: the fork exists when the probe is answered with 200. *)
Lemma forkExists_status (g : GitHubClient) (owner : string) (probe : http.Request)
    (st st' : State) (r : Result http.Response) :
  NewRequestWithContext "GET" (forkProbeURL owner) None = Ok probe ->
  doRequestRaw g probe st = (Ret r, st') ->
  forkExists g owner st
  = (Ret match r with
         | Err err => Err err
         | Ok resp => Ok (http.StatusCode resp =? 200)%Z
         end, st').
Proof.
  intros Hreq Hdo. unfold forkExists. fold (forkProbeURL owner).
  rewrite Hreq. unfold bind. rewrite Hdo. destruct r; reflexivity.
Qed.

(** [createFork]: 202 and 200 are the accepted answers. *)
Lemma createFork_status (g : GitHubClient) (create : http.Request)
    (st st' : State) (r : Result http.Response) :
  NewRequestWithContext "POST" forkCreateURL None = Ok create ->
  doRequestRaw g create st = (Ret r, st') ->
  createFork g st
  = (Ret match r with
         | Err err => Err err
         | Ok resp =>
             if ((http.StatusCode resp =? 202) || (http.StatusCode resp =? 200))%Z
             then Ok tt
             else Err ("failed to create fork: "
                       +:+ string_of_list_byte (http.data (http.RespBody resp)))
         end, st').
Proof.
  intros Hreq Hdo. unfold createFork. fold forkCreateURL.
  rewrite Hreq. unfold bind. rewrite Hdo. destruct r as [resp|err]; [| reflexivity].
  unfold http.StatusAccepted, http.StatusOK.
  destruct (http.StatusCode resp =? 202)%Z, (http.StatusCode resp =? 200)%Z; reflexivity.
Qed.

(** A probe URL that does not parse fails the existence check. *)
Lemma forkExists_url_refused (g : GitHubClient) (owner : string) (e : error)
    (st : State) :
  url_Parse_error (forkProbeURL owner) = Some e ->
  forkExists g owner st = (Ret (Err e), st).
Proof.
  intros H. unfold forkExists, NewRequestWithContext. fold (forkProbeURL owner).
  now rewrite H.
Qed.

(** C5, as amended.  [EnsureFork] returns a configured fork owner at once,
    with no request.  Otherwise it resolves the identity, probes the fork (a
    probe answered with status 200 means the fork exists and the identity is
    returned), and on any other probe status asks for the fork to be created,
    takes 200 or 202 as success, sleeps five seconds and returns the
    identity.  A failure of the identity lookup, of the probe or of the
    creation fails the call. *)
Theorem EnsureFork_behaviour (g : GitHubClient) (st : State) :
  (forkOwner g <> "" -> EnsureFork g st = (Ret (Ok (forkOwner g)), st))
  /\ (forkOwner g = "" ->
      forall (r1 : Result string) (st1 : State),
        getCurrentUser g st = (Ret r1, st1) ->
        match r1 with
        | Err e =>
            EnsureFork g st = (Ret (Err ("failed to get current user: " +:+ e)), st1)
        | Ok user =>
            forall (probe : http.Request) (r2 : Result http.Response) (st2 : State),
              NewRequestWithContext "GET" (forkProbeURL user) None = Ok probe ->
              doRequestRaw g probe st1 = (Ret r2, st2) ->
              match r2 with
              | Err e =>
                  EnsureFork g st = (Ret (Err ("failed to check fork: " +:+ e)), st2)
              | Ok presp =>
                  if (http.StatusCode presp =? 200)%Z
                  then EnsureFork g st = (Ret (Ok user), st2)
                  else
                    forall (create : http.Request) (r3 : Result http.Response)
                           (st3 : State),
                      NewRequestWithContext "POST" forkCreateURL None = Ok create ->
                      doRequestRaw g create st2 = (Ret r3, st3) ->
                      match r3 with
                      | Err e =>
                          EnsureFork g st
                          = (Ret (Err ("failed to create fork: " +:+ e)), st3)
                      | Ok cresp =>
                          if ((http.StatusCode cresp =? 202)
                              || (http.StatusCode cresp =? 200))%Z
                          then
                            EnsureFork g st
                            = (Ret (Ok user),
                               mkState (world st3)
                                 (trace st3 ++ [EvSleep (5 * time_Second)]))
                          else
                            EnsureFork g st
                            = (Ret (Err ("failed to create fork: failed to create fork: "
                                         +:+ string_of_list_byte
                                               (http.data (http.RespBody cresp)))),
                               st3)
                      end
              end
        end).
Proof.
  split.
  - intros H. unfold EnsureFork.
    destruct (String.eqb_spec (forkOwner g) ""); [contradiction | reflexivity].
  - intros H r1 st1 H1.
    assert (E0 : EnsureFork g st
                 = match r1 with
                   | Err e => (Ret (Err ("failed to get current user: " +:+ e)), st1)
                   | Ok user =>
                       (let* r := forkExists g user in
                        match r with
                        | Err err => ret (Err ("failed to check fork: " +:+ err))
                        | Ok exists_ =>
                            if exists_ then ret (Ok user)
                            else
                              let* r := createFork g in
                              match r with
                              | Err err => ret (Err ("failed to create fork: " +:+ err))
                              | Ok _ => time_Sleep (5 * time_Second) ;; ret (Ok user)
                              end
                        end) st1
                   end).
    { unfold EnsureFork. rewrite H. cbn [String.eqb negb].
      unfold bind at 1. rewrite H1. destruct r1; reflexivity. }
    rewrite E0. clear E0.
    destruct r1 as [user|e]; [| reflexivity].
    intros probe r2 st2 Hp H2.
    rewrite (bind_Ret _ _ _ _ _ (forkExists_status g user probe st1 st2 r2 Hp H2)).
    destruct r2 as [presp|e]; [| reflexivity].
    destruct (http.StatusCode presp =? 200)%Z; [reflexivity |].
    intros create r3 st3 Hc H3.
    rewrite (bind_Ret _ _ _ _ _ (createFork_status g create st2 st3 r3 Hc H3)).
    destruct r3 as [cresp|e]; [| reflexivity].
    destruct ((http.StatusCode cresp =? 202) || (http.StatusCode cresp =? 200))%Z;
      reflexivity.
Qed.

End Pipeline.

(** * Concrete runs, in the sample environment *)

Local Abbreviation sample_CalculateInstallerHash :=
  (CalculateInstallerHash sample_Quote sample_url_Parse_error SampleWorld sample_transport).
Local Abbreviation sample_client_Do :=
  (client_Do sample_Quote SampleWorld sample_transport).
Local Abbreviation sample_EnsureFork :=
  (EnsureFork sample_json_Decode sample_url_Parse_error SampleWorld sample_defaultClientDo).
Local Abbreviation sample_getCurrentUser :=
  (getCurrentUser sample_json_Decode sample_url_Parse_error SampleWorld
     sample_defaultClientDo).
Local Abbreviation sample_doRequestRaw :=
  (doRequestRaw SampleWorld sample_defaultClientDo).
Local Abbreviation sample_executePostPublish :=
  (executePostPublish sample_yaml sample_json_Marshal sample_json_Decode sample_base64
     sample_Quote sample_url_Parse_error sample_range_order SampleWorld sample_transport
     sample_defaultClientDo).
Local Abbreviation sample_Execute :=
  (Execute sample_yaml sample_json_Marshal sample_json_Decode sample_base64
     sample_Quote sample_url_Parse_error sample_range_order sample_GetString
     sample_GetBool "PostPublish" SampleWorld sample_transport sample_defaultClientDo).
Local Abbreviation start w := (mkState SampleWorld w []).

(** C3 (code at the failing input).  For the identifier ["Édition.App"] the
    namespace starts with a two-byte character.  [publisher[:1]] keeps its
    first byte only, which [strings.ToLower] turns into U+FFFD: the path is
    [manifests/<U+FFFD>/...], whose first segment is neither the first
    character in lower case (the bytes 0xC3 0xA9) nor the first byte, and
    the three files are keyed under it. *)
Theorem GenerateManifests_non_ascii_first_letter :
  let id := sample_non_ascii_id in
  let lower_first_character := String (ascii_of_N 195) (String (ascii_of_N 169) "") in
  let first_byte := String (ascii_of_N 195) "" in
  exists ms files,
    split_at_first_dot id (String (ascii_of_N 195) (String (ascii_of_N 137) "dition")) "App"
    /\ GenerateManifests (sample_config id false) "1.0.0" [] = Ret (Ok ms)
    /\ ManifestSet.Path ms
       = "manifests/" +:+ GoStrings.RuneError_utf8 +:+ "/" +:+ id +:+ "/1.0.0"
    /\ ManifestSet.Path ms
       <> "manifests/" +:+ lower_first_character +:+ "/" +:+ id +:+ "/1.0.0"
    /\ ManifestSet.Path ms <> "manifests/" +:+ first_byte +:+ "/" +:+ id +:+ "/1.0.0"
    /\ GetFiles sample_yaml ms = Ok files
    /\ is_Some (files !! ("manifests/" +:+ GoStrings.RuneError_utf8 +:+ "/" +:+ id
                          +:+ "/1.0.0/" +:+ id +:+ ".yaml"))
    /\ files !! ("manifests/" +:+ lower_first_character +:+ "/" +:+ id
                 +:+ "/1.0.0/" +:+ id +:+ ".yaml") = None.
Proof.
  cbv zeta. eexists. eexists.
  split.
  { split; [reflexivity |]. vm_compute.
    intros H; repeat destruct H as [H|H]; try discriminate H; exact H. }
  split; [reflexivity |].
  split; [reflexivity |].
  split; [vm_compute; discriminate |].
  split; [vm_compute; discriminate |].
  split; [reflexivity |].
  split; [eexists; vm_compute; reflexivity | vm_compute; reflexivity].
Qed.

(** C4, on the configuration of [TestGenerateManifests]. *)
Lemma GenerateManifests_documents_agree_witness :
  exists ms,
    GenerateManifests (sample_config "MyOrg.MyApp" false) "1.0.0" [] = Ret (Ok ms)
    /\ ManifestSet.Path ms = "manifests/m/MyOrg.MyApp/1.0.0"
    /\ (VersionManifest.PackageIdentifier (ManifestSet.Version ms) = "MyOrg.MyApp"
        /\ InstallerManifest.PackageIdentifier (ManifestSet.Installer ms) = "MyOrg.MyApp"
        /\ LocaleManifest.PackageIdentifier (ManifestSet.Locale ms) = "MyOrg.MyApp"
        /\ VersionManifest.PackageVersion (ManifestSet.Version ms) = "1.0.0"
        /\ InstallerManifest.PackageVersion (ManifestSet.Installer ms) = "1.0.0"
        /\ LocaleManifest.PackageVersion (ManifestSet.Locale ms) = "1.0.0").
Proof.
  eexists. split; [reflexivity |]. split; [reflexivity |].
  exact (GenerateManifests_documents_agree
           (sample_config "MyOrg.MyApp" false) "1.0.0" [] _ eq_refl).
Defined.

(** C9, on a request for another hook. *)
Lemma Execute_other_hook_witness :
  let req := ExecuteRequest.mk "PreVersion" ∅ (ReleaseContext.mk "1.0.0") false in
  let st := start (mkSampleWorld 0 (sample_response 200 "") []) in
  ExecuteRequest.Hook req <> "PostPublish"
  /\ sample_Execute req st
     = (Ret (Ok (ExecuteResponse.mk true "Hook PreVersion not handled by winget plugin")), st).
Proof.
  cbv zeta. split; [discriminate |].
  apply (Execute_other_hook sample_yaml sample_json_Marshal sample_json_Decode sample_base64
           sample_Quote sample_url_Parse_error sample_range_order sample_GetString
           sample_GetBool "PostPublish" SampleWorld sample_transport sample_defaultClientDo).
  discriminate.
Defined.

(** C2, on a dry run of the sample configuration: three log lines per
    stage, no request, and the simulated pull request in the message. *)
Lemma executePostPublish_dry_run_witness :
  let cfg := sample_config "MyOrg.MyApp" true in
  let st := start (mkSampleWorld 0 (sample_response 200 "") []) in
  Config.DryRun cfg = true
  /\ fst (sample_executePostPublish (ReleaseContext.mk "1.0.0") cfg [] st)
     = Ret (Ok (ExecuteResponse.mk true
                  "[DRY-RUN] Would create PR for MyOrg.MyApp version 1.0.0"))
  /\ exists (installers : list Installer.t) (evs : list Event),
       snd (sample_executePostPublish (ReleaseContext.mk "1.0.0") cfg [] st)
       = mkState SampleWorld (world SampleWorld st) (trace SampleWorld st ++ evs)
       /\ Forall (fun e => is_network e = false) evs
       /\ Forall2 (dry_run_installer_of "1.0.0") (Config.Installers cfg) installers
       /\ installers
          = [Installer.mk "x64" "msi" "https://example.com/myapp-1.0.0-x64.msi"
               "0000000000000000000000000000000000000000000000000000000000000000"
               "" ∅ ""]
       /\ length evs = 8.
Proof.
  cbv zeta. split; [reflexivity |]. split; [vm_compute; reflexivity |].
  destruct (executePostPublish_dry_run sample_yaml sample_json_Marshal sample_json_Decode
              sample_base64 sample_Quote sample_url_Parse_error sample_range_order
              SampleWorld sample_transport sample_defaultClientDo
              (ReleaseContext.mk "1.0.0") (sample_config "MyOrg.MyApp" true) []
              (start (mkSampleWorld 0 (sample_response 200 "") [])) eq_refl)
    as (installers & evs & out & E & Hnet & Hall & _ & Hins & _ & Hevs & _).
  exists installers, evs. rewrite E.
  split; [reflexivity |]. split; [exact Hnet |]. split; [exact Hall |].
  split; [rewrite Hins; reflexivity |].
  rewrite Hevs, Hins. reflexivity.
Defined.

(** C7, on a host that answers 404 (as in [TestCalculateInstallerHashNotFound]). *)
Lemma CalculateInstallerHash_status_witness :
  let url := "https://example.com/app.msi" in
  let resp := sample_response 404 "" in
  let st := start (mkSampleWorld 0 resp []) in
  exists st',
    sample_client_Do installerCheckRedirect installerClientFuel [] (installerRequest url) st
    = (Ret (Ok resp), st')
    /\ sample_CalculateInstallerHash url st
       = (Ret (Err "download failed with status 404"), st').
Proof.
  cbv zeta. eexists. split; [reflexivity |].
  apply (CalculateInstallerHash_status sample_Quote sample_url_Parse_error SampleWorld
           sample_transport "https://example.com/app.msi"
           (start (mkSampleWorld 0 (sample_response 404 "") [])) _
           (sample_response 404 "") eq_refl eq_refl).
  discriminate.
Defined.

(** C7 as stated fails: a final response with status 204, inside the 2xx
    range, makes the call fail with the status error. *)
Lemma CalculateInstallerHash_fails_on_204 :
  let url := "https://example.com/app.msi" in
  let resp := sample_response 204 "" in
  let st := start (mkSampleWorld 0 resp []) in
  (200 <= http.StatusCode resp <= 299)%Z
  /\ exists st',
       sample_client_Do installerCheckRedirect installerClientFuel []
         (installerRequest url) st
       = (Ret (Ok resp), st')
       /\ sample_CalculateInstallerHash url st
          = (Ret (Err "download failed with status 204"), st').
Proof.
  cbv zeta. split; [cbn; lia |].
  eexists. split; reflexivity.
Qed.

(** C8, on a resource behind nine redirects: ten requests, and the digest
    of the bytes served. *)
Lemma CalculateInstallerHash_redirects_witness :
  let url := "https://example.com/app.msi" in
  let st := start (mkSampleWorld 9 (sample_response 200 "redirected content") []) in
  exists (hops : list http.Request) (req' : http.Request) (w1 : SampleWorld)
         (st' : State SampleWorld),
    length hops = 9
    /\ follows SampleWorld sample_transport (world SampleWorld st) (installerRequest url)
         hops w1 req'
    /\ sample_CalculateInstallerHash url st
       = (Ret (Ok (CalculateHashFromBytes (list_byte_of_string "redirected content"))), st')
    /\ length (trace SampleWorld st') = 10.
Proof.
  cbv zeta.
  assert (F : follows SampleWorld sample_transport
                (mkSampleWorld 9 (sample_response 200 "redirected content") [])
                (installerRequest "https://example.com/app.msi")
                (map (fun k => http.Header_Set
                                 (http.mkRequest "GET"
                                    ("https://example.com/app.msi" +:+ repeat_r k) ∅ None)
                                 "User-Agent" "Relicta-WinGet-Plugin/1.0")
                     (seq 0 9))
                (mkSampleWorld 0 (sample_response 200 "redirected content") [])
                (http.Header_Set
                   (http.mkRequest "GET" ("https://example.com/app.msi" +:+ repeat_r 9) ∅ None)
                   "User-Agent" "Relicta-WinGet-Plugin/1.0")).
  { do 9 (eapply follows_cons; [reflexivity |]). apply follows_nil. }
  eexists. eexists. eexists. eexists.
  split; [| split; [exact F |]].
  { reflexivity. }
  split.
  - eapply (proj1 (CalculateInstallerHash_redirects sample_Quote sample_url_Parse_error
                    SampleWorld sample_transport "https://example.com/app.msi"
                    (start (mkSampleWorld 9 (sample_response 200 "redirected content") []))
                    _ _ _ eq_refl F));
      [cbn; lia | reflexivity | reflexivity | reflexivity].
  - reflexivity.
Defined.

(** C8 as stated fails: a resource served with status 200 behind exactly
    ten redirects is not hashed; the call stops at the tenth redirect. *)
Lemma CalculateInstallerHash_fails_on_tenth_redirect :
  let url := "https://example.com/app.msi" in
  let resp := sample_response 200 "redirected content" in
  let st := start (mkSampleWorld 10 resp []) in
  exists (hops : list http.Request) (req' : http.Request) (w1 : SampleWorld),
    length hops = 10
    /\ follows SampleWorld sample_transport (world SampleWorld st) (installerRequest url)
         hops w1 req'
    /\ sample_transport req' w1 = (http.Respond resp, w1)
    /\ http.StatusCode resp = 200%Z
    /\ http.readErr (http.RespBody resp) = None
    /\ sample_CalculateInstallerHash url st
       = (Ret (Err ("failed to download installer: Get "
                    +:+ sample_Quote (http.URL req') +:+ ": too many redirects")),
          mkState SampleWorld w1 (map EvDownload hops)).
Proof.
  cbv zeta.
  assert (F : follows SampleWorld sample_transport
                (mkSampleWorld 10 (sample_response 200 "redirected content") [])
                (installerRequest "https://example.com/app.msi")
                (map (fun k => http.Header_Set
                                 (http.mkRequest "GET"
                                    ("https://example.com/app.msi" +:+ repeat_r k) ∅ None)
                                 "User-Agent" "Relicta-WinGet-Plugin/1.0")
                     (seq 0 10))
                (mkSampleWorld 0 (sample_response 200 "redirected content") [])
                (http.Header_Set
                   (http.mkRequest "GET" ("https://example.com/app.msi" +:+ repeat_r 10) ∅ None)
                   "User-Agent" "Relicta-WinGet-Plugin/1.0")).
  { do 10 (eapply follows_cons; [reflexivity |]). apply follows_nil. }
  eexists. eexists. eexists.
  split; [| split; [exact F |]].
  - reflexivity.
  - repeat split; reflexivity.
Qed.

(** C5, on scenario D: the identity lookup answers "alice", the probe 404,
    the creation 202.  [EnsureFork] returns "alice" after three requests
    and a sleep of five seconds. *)
Lemma EnsureFork_behaviour_witness :
  let g := NewGitHubClient "test-token" "" in
  let st := start (mkSampleWorld 0 (sample_response 200 "")
                     [Ok (sample_response 200 "alice");
                      Ok (sample_response 404 "");
                      Ok (sample_response 202 "")]) in
  exists st3 : State SampleWorld,
    sample_EnsureFork g st
    = (Ret (Ok "alice"),
       mkState SampleWorld (world SampleWorld st3)
         (trace SampleWorld st3 ++ [EvSleep 5000000000]))
    /\ length (List.filter is_github (trace SampleWorld st3)) = 3.
Proof.
  cbv zeta. eexists. split.
  - pose proof (proj2 (EnsureFork_behaviour sample_json_Decode sample_url_Parse_error
                         SampleWorld sample_defaultClientDo
                         (NewGitHubClient "test-token" "")
                         (start (mkSampleWorld 0 (sample_response 200 "")
                                   [Ok (sample_response 200 "alice");
                                    Ok (sample_response 404 "");
                                    Ok (sample_response 202 "")])))
                  eq_refl _ _ eq_refl) as W.
    cbv beta iota in W.
    specialize (W _ _ _ eq_refl eq_refl). cbv beta iota in W.
    change ((http.StatusCode (sample_response 404 "") =? 200)%Z) with false in W.
    cbv beta iota in W.
    specialize (W _ _ _ eq_refl eq_refl). cbv beta iota in W.
    exact W.
  - reflexivity.
Defined.

(** C5 as stated fails: a probe answered with 204, inside the 2xx range,
    is not taken as "the fork exists".  [EnsureFork] goes on to ask for the
    fork to be created, and fails when that request is refused. *)
Lemma EnsureFork_probe_204_not_exists :
  let g := NewGitHubClient "test-token" "" in
  let probe := sample_response 204 "" in
  let st := start (mkSampleWorld 0 (sample_response 200 "")
                     [Ok (sample_response 200 "alice");
                      Ok probe;
                      Ok (sample_response 500 "boom")]) in
  (200 <= http.StatusCode probe <= 299)%Z
  /\ exists (st1 st2 st3 : State SampleWorld) (probeReq : http.Request),
       sample_getCurrentUser g st = (Ret (Ok "alice"), st1)
       /\ NewRequestWithContext sample_url_Parse_error "GET" (forkProbeURL "alice") None
          = Ok probeReq
       /\ sample_doRequestRaw g probeReq st1 = (Ret (Ok probe), st2)
       /\ sample_EnsureFork g st
          = (Ret (Err "failed to create fork: failed to create fork: boom"), st3)
       /\ (exists req : http.Request,
             last (trace SampleWorld st3) = Some (EvGitHub req)
             /\ http.Method req = "POST"
             /\ http.URL req = forkCreateURL).
Proof.
  cbv zeta. split; [cbn; lia |].
  eexists. eexists. eexists. eexists.
  split; [reflexivity |]. split; [reflexivity |]. split; [reflexivity |].
  split; [reflexivity |].
  eexists. split; [reflexivity |]. split; reflexivity.
Qed.

(** A live run with an identifier that has no separator: the installer is
    downloaded first, and the identifier error ends the run afterwards. *)
Lemma executePostPublish_invalid_id_after_download :
  let cfg := sample_config "InvalidPackageID" false in
  let st := start (mkSampleWorld 0 (sample_response 200 "test installer content") []) in
  fst (sample_executePostPublish (ReleaseContext.mk "1.0.0") cfg [] st)
  = Ret (Ok (ExecuteResponse.mk false
               "Failed to generate manifests: invalid package ID format: InvalidPackageID"))
  /\ List.filter is_network
       (trace SampleWorld (snd (sample_executePostPublish (ReleaseContext.mk "1.0.0") cfg [] st)))
     = [EvDownload (installerRequest "https://example.com/myapp-1.0.0-x64.msi")].
Proof. cbv zeta. split; vm_compute; reflexivity. Qed.

(** Scenario A, live: the installer is hashed (behind one redirect), the
    fork is found, and the branch, the three files (in the order the sample
    range takes them) and the pull request are created. *)
Example executePostPublish_live_run :
  let cfg := sample_config "MyOrg.MyApp" false in
  let ok := sample_response 200 in
  let created := sample_response 201 in
  let st :=
    start (mkSampleWorld 1 (ok "test installer content")
             [Ok (ok "alice"); Ok (ok "");
              Ok (ok "alice"); Ok (ok "abc123"); Ok (created "");
              Ok (created ""); Ok (created ""); Ok (created "");
              Ok (created "https://github.com/microsoft/winget-pkgs/pull/1")]) in
  let run := sample_executePostPublish (ReleaseContext.mk "1.0.0") cfg [] st in
  fst run
  = Ret (Ok (ExecuteResponse.mk true
               ("Created PR for MyOrg.MyApp version 1.0.0: "
                +:+ "https://github.com/microsoft/winget-pkgs/pull/1")))
  /\ map (fun e => match e with
                   | EvDownload req | EvGitHub req => http.Method req +:+ " " +:+ http.URL req
                   | _ => ""
                   end)
       (List.filter is_network (trace SampleWorld (snd run)))
     = ["GET https://example.com/myapp-1.0.0-x64.msi";
        "GET https://example.com/myapp-1.0.0-x64.msi/r";
        "GET https://api.github.com/user";
        "GET https://api.github.com/repos/alice/winget-pkgs";
        "GET https://api.github.com/user";
        "GET https://api.github.com/repos/microsoft/winget-pkgs/git/ref/heads/master";
        "POST https://api.github.com/repos/alice/winget-pkgs/git/refs";
        "PUT https://api.github.com/repos/alice/winget-pkgs/contents/manifests/m/MyOrg.MyApp/1.0.0/MyOrg.MyApp.yaml";
        "PUT https://api.github.com/repos/alice/winget-pkgs/contents/manifests/m/MyOrg.MyApp/1.0.0/MyOrg.MyApp.installer.yaml";
        "PUT https://api.github.com/repos/alice/winget-pkgs/contents/manifests/m/MyOrg.MyApp/1.0.0/MyOrg.MyApp.locale.en-US.yaml";
        "POST https://api.github.com/repos/microsoft/winget-pkgs/pulls"].
Proof. cbv zeta. split; vm_compute; reflexivity. Qed.
